(** * Dapp.vue: the wallet session and the token transfer of the sample dapp

    A shallow embedding of the script part of
    [frontend/src/components/Dapp.vue].  The component is a JavaScript object
    whose methods read and write its own fields, call the injected wallet
    ([window.ethereum]) and the ethers contract binding ([this.token]), and
    suspend at every [await].  The methods are embedded as programs of a small
    monad with state, exceptions, suspension points and detached calls; two
    interpreters give them their meaning:

    - [start] runs a program to its first suspension point, which is what a
      call of a JavaScript function does before it returns to its caller;
    - [exec] runs one call to completion against a schedule that settles
      every awaited promise and says what the rest of the page did to the
      component while the call was suspended.

    A third layer, [dispatch], is the event loop of the page: clicks, wallet
    events, timer ticks and settled promises, each run to completion. *)

From Stdlib Require Import ZArith List String Bool Lia.
Import ListNotations.
Local Open Scope string_scope.
Local Open Scope Z_scope.
Local Open Scope list_scope.

Set Implicit Arguments.

(** ** JavaScript values

    Only the values thrown and caught by [transferTokens] are untyped in the
    source: a wallet error, an ethers error, [new Error(...)], or anything a
    promise was rejected with.  Numbers are the integers, which is all that
    [=== 4001] can tell apart. *)

#[local] Set Warnings "-register-all".
Inductive JsVal : Type :=
| VUndefined
| VNull
| VBool (b : bool)
| VNum (n : Z)
| VStr (s : string)
| VObj (props : list (string * JsVal)).

Module Js.

(** [if (v)]: the falsy values are undefined, null, false, 0 and the
    empty string. *)
Definition truthy (v : JsVal) : bool :=
  match v with
  | VUndefined | VNull => false
  | VBool b => b
  | VNum n => negb (n =? 0)
  | VStr s => negb (String.eqb s "")
  | VObj _ => true
  end.

Fixpoint lookup (name : string) (props : list (string * JsVal)) : JsVal :=
  match props with
  | [] => VUndefined
  | (k, v) :: rest => if String.eqb k name then v else lookup name rest
  end.

(** [v.name]: reading a property of undefined or null throws a TypeError,
    a primitive has none of the properties read in this file, an object
    gives the property or undefined. *)
Definition prop (v : JsVal) (name : string) : option JsVal :=
  match v with
  | VUndefined | VNull => None
  | VObj props => Some (lookup name props)
  | _ => Some VUndefined
  end.

(** [v === n] for a number literal [n]. *)
Definition strict_eq_num (v : JsVal) (n : Z) : bool :=
  match v with
  | VNum m => m =? n
  | _ => false
  end.

(** [v === s] for a string literal [s]; [v] is a string or undefined. *)
Definition strict_eq_str (v : option string) (s : string) : bool :=
  match v with
  | Some x => String.eqb x s
  | None => false
  end.

(** [new Error(message)] *)
Definition Error (message : string) : JsVal :=
  VObj [("message", VStr message)].

(** The TypeError of a property read or a method call on undefined. *)
Definition TypeError (message : string) : JsVal :=
  VObj [("name", VStr "TypeError"); ("message", VStr message)].

End Js.

(** ** The component's state *)

Record TokenData : Type := mkTokenData {
  name : string;
  symbol : string }.

(** The object returned by [initialData()], that is [this.$data]. *)
Record Data : Type := mkData {
  tokenData : option TokenData;
  selectedAddress : option string;
  balance : option Z;
  txBeingSent : option string;
  transactionError : JsVal;
  networkError : option string }.

(** [new ethers.providers.Web3Provider(window.ethereum)] and
    [new ethers.Contract(contractAddress.Token, TokenArtifact.abi, signer)]:
    the objects are opaque here, only their presence is read. *)
Inductive Web3Provider : Type := mkWeb3Provider.
Inductive Contract : Type := mkContract (provider : Web3Provider).

(** The two callbacks [connectWallet] passes to [window.ethereum.on]. *)
Inductive Listener : Type :=
| OnAccountsChanged
| OnNetworkChanged.

(** The component instance together with the part of [window] it touches.
    [provider], [token] and [pollDataInterval] are plain properties of
    [this]; they are not part of [$data]. *)
Record World : Type := mkWorld {
  data : Data;
  provider : option Web3Provider;
  token : option Contract;
  pollDataInterval : option nat;
  networkVersion : option string;      (* window.ethereum.networkVersion *)
  listeners : list Listener;           (* window.ethereum.on(...) *)
  intervals : list (nat * Z);          (* live setInterval timers: id, delay *)
  nextInterval : nat;                  (* the id the next setInterval returns *)
  console : list JsVal }.              (* console.error(...) *)

Definition with_data (f : Data -> Data) (w : World) : World :=
  mkWorld (f (data w)) (provider w) (token w) (pollDataInterval w)
          (networkVersion w) (listeners w) (intervals w) (nextInterval w)
          (console w).

Definition set_tokenData (v : option TokenData) (d : Data) : Data :=
  mkData v (selectedAddress d) (balance d) (txBeingSent d)
         (transactionError d) (networkError d).
Definition set_selectedAddress (v : option string) (d : Data) : Data :=
  mkData (tokenData d) v (balance d) (txBeingSent d)
         (transactionError d) (networkError d).
Definition set_balance (v : option Z) (d : Data) : Data :=
  mkData (tokenData d) (selectedAddress d) v (txBeingSent d)
         (transactionError d) (networkError d).
Definition set_txBeingSent (v : option string) (d : Data) : Data :=
  mkData (tokenData d) (selectedAddress d) (balance d) v
         (transactionError d) (networkError d).
Definition set_transactionError (v : JsVal) (d : Data) : Data :=
  mkData (tokenData d) (selectedAddress d) (balance d) (txBeingSent d)
         v (networkError d).
Definition set_networkError (v : option string) (d : Data) : Data :=
  mkData (tokenData d) (selectedAddress d) (balance d) (txBeingSent d)
         (transactionError d) v.

Definition set_provider (v : option Web3Provider) (w : World) : World :=
  mkWorld (data w) v (token w) (pollDataInterval w)
          (networkVersion w) (listeners w) (intervals w) (nextInterval w)
          (console w).
Definition set_token (v : option Contract) (w : World) : World :=
  mkWorld (data w) (provider w) v (pollDataInterval w)
          (networkVersion w) (listeners w) (intervals w) (nextInterval w)
          (console w).
Definition set_pollDataInterval (v : option nat) (w : World) : World :=
  mkWorld (data w) (provider w) (token w) v
          (networkVersion w) (listeners w) (intervals w) (nextInterval w)
          (console w).
Definition set_networkVersion (v : option string) (w : World) : World :=
  mkWorld (data w) (provider w) (token w) (pollDataInterval w)
          v (listeners w) (intervals w) (nextInterval w)
          (console w).
Definition add_listener (l : Listener) (w : World) : World :=
  mkWorld (data w) (provider w) (token w) (pollDataInterval w)
          (networkVersion w) (listeners w ++ [l]) (intervals w)
          (nextInterval w) (console w).
Definition console_error (v : JsVal) (w : World) : World :=
  mkWorld (data w) (provider w) (token w) (pollDataInterval w)
          (networkVersion w) (listeners w) (intervals w) (nextInterval w)
          (console w ++ [v]).

(** ** The calls that are awaited *)

Record Tx : Type := mkTx { hash : string }.
Record Receipt : Type := mkReceipt { status : Z }.

Inductive Request : Type :=
| Enable                                        (* window.ethereum.enable() *)
| TokenName                                     (* this.token.name() *)
| TokenSymbol                                   (* this.token.symbol() *)
| BalanceOf (owner : option string)             (* this.token.balanceOf(a) *)
| Transfer (to : string) (amount : Z)           (* this.token.transfer(..) *)
| Wait (tx : Tx)                                (* tx.wait() *)
| Microtask.         (* the promise of an async method of the component *)

(** What the promise of each call is fulfilled with. *)
Definition Response (q : Request) : Type :=
  match q with
  | Enable => list string
  | TokenName => string
  | TokenSymbol => string
  | BalanceOf _ => Z
  | Transfer _ _ => Tx
  | Wait _ => Receipt
  | Microtask => unit
  end.

Inductive Settled (A : Type) : Type :=
| Fulfilled (v : A)
| Rejected (reason : JsVal).
Arguments Rejected {A} reason.

(** ** Programs *)

Inductive Prog (R : Type) : Type :=
| Ret (r : R)
| Throw (e : JsVal)
| Get (k : World -> Prog R)
| Put (w : World) (k : Prog R)
| Await (q : Request) (k : Settled (Response q) -> Prog R)
| Spawn (p : Prog unit) (k : Prog R).
Arguments Throw {R} e.
Arguments Await {R} q k.
Arguments Spawn {R} p k.

Fixpoint bind {R S : Type} (p : Prog R) (f : R -> Prog S) : Prog S :=
  match p with
  | Ret r => f r
  | Throw e => Throw e
  | Get k => Get (fun w => bind (k w) f)
  | Put w k => Put w (bind k f)
  | Await q k => Await q (fun s => bind (k s) f)
  | Spawn p' k => Spawn p' (bind k f)
  end.

(** [try { p } catch (error) { h error }] *)
Fixpoint try_catch {R : Type} (p : Prog R) (h : JsVal -> Prog R) : Prog R :=
  match p with
  | Ret r => Ret r
  | Throw e => h e
  | Get k => Get (fun w => try_catch (k w) h)
  | Put w k => Put w (try_catch k h)
  | Await q k => Await q (fun s => try_catch (k s) h)
  | Spawn p' k => Spawn p' (try_catch k h)
  end.

(** [try { p } finally { f }]: [f] runs on both exits of [p], and the
    completion of [p] is the completion of the whole statement when [f]
    completes normally. *)
Fixpoint try_finally {R : Type} (p : Prog R) (f : Prog unit) : Prog R :=
  match p with
  | Ret r => bind f (fun _ => Ret r)
  | Throw e => bind f (fun _ => Throw e)
  | Get k => Get (fun w => try_finally (k w) f)
  | Put w k => Put w (try_finally k f)
  | Await q k => Await q (fun s => try_finally (k s) f)
  | Spawn p' k => Spawn p' (try_finally k f)
  end.

Declare Scope prog_scope.
Delimit Scope prog_scope with prog.
Notation "x <- p ;; q" := (bind p (fun x => q))
  (at level 100, p at next level, right associativity) : prog_scope.
Notation "p ;; q" := (bind p (fun _ => q))
  (at level 100, right associativity) : prog_scope.
Local Open Scope prog_scope.

Definition get : Prog World := Get (fun w => Ret w).
Definition modify (f : World -> World) : Prog unit :=
  Get (fun w => Put (f w) (Ret tt)).

(** [await q]: a rejected promise throws its reason at the [await]. *)
Definition await (q : Request) : Prog (Response q) :=
  Await q (fun s =>
    match s with
    | Fulfilled v => Ret v
    | Rejected e => Throw e
    end).

(** A call of an async function whose promise is dropped. *)
Definition detach (p : Prog unit) : Prog unit := Spawn p (Ret tt).

(** [await p()] for an async method [p] of the component: the body runs in
    the caller, and the caller resumes one turn of the job queue after the
    body has completed, with its result or its exception. *)
Definition await_call {R : Type} (p : Prog R) : Prog R :=
  try_finally p (Await Microtask (fun _ => Ret tt)).

(** [v.name] as a statement. *)
Definition read_prop (v : JsVal) (name : string) : Prog JsVal :=
  match Js.prop v name with
  | Some x => Ret x
  | None =>
      Throw (Js.TypeError ("Cannot read property of undefined: " ++ name)%string)
  end.

(** ** Running programs *)

Definition suspended {R : Type} (p : Prog R) : bool :=
  match p with
  | Await _ _ => true
  | _ => false
  end.

(** The request a suspended call is waiting for. *)
Definition awaiting {R : Type} (p : Prog R) : option Request :=
  match p with
  | Await q _ => Some q
  | _ => None
  end.

Definition pending (p : Prog unit) : list (Prog unit) :=
  if suspended p then [p] else [].

(** [start p w]: the synchronous part of a call.  The result is the world
    when control returns to the caller, what is left of the call (a
    completion, or the suspension it is parked at), and the detached calls
    that are now parked at a suspension of their own. *)
Fixpoint start {R : Type} (p : Prog R) (w : World)
  : World * Prog R * list (Prog unit) :=
  match p with
  | Ret r => (w, Ret r, [])
  | Throw e => (w, Throw e, [])
  | Get k => start (k w) w
  | Put w' k => start k w'
  | Await q k => (w, Await q k, [])
  | Spawn p' k =>
      let '(w1, rest1, spawned1) := start p' w in
      let '(w2, rest2, spawned2) := start k w1 in
      (w2, rest2, spawned1 ++ pending rest1 ++ spawned2)
  end.

Inductive Completion (R : Type) : Type :=
| Normal (r : R)
| Thrown (e : JsVal).
Arguments Thrown {R} e.

(** A schedule settles the [n]-th awaited promise of a call with
    [answer n], and [meanwhile n] is everything the other tasks of the page
    did to the world while the call was parked there. *)
Record Sched : Type := mkSched {
  answer : nat -> forall q : Request, Settled (Response q);
  meanwhile : nat -> World -> World }.

Record Run (R : Type) : Type := mkRun {
  final : World;
  completion : Completion R;
  asked : list Request;              (* the requests awaited, in order *)
  spawned : list (Prog unit) }.      (* the detached calls left parked *)

(** [r1] followed by [r2]. *)
Definition then_run {R S : Type} (r1 : Run R) (r2 : Run S) : Run S :=
  mkRun (final r2) (completion r2) (asked r1 ++ asked r2)
        (spawned r1 ++ spawned r2).

(** The index of the suspension that follows the run [r] begun at [n]. *)
Definition next {R : Type} (n : nat) (r : Run R) : nat :=
  (n + List.length (asked r))%nat.

(** The completion of [try { p } finally { f }]: that of [f] when [f]
    throws, that of [p] otherwise. *)
Definition finally_completion {R : Type} (c : Completion R)
    (cf : Completion unit) : Completion R :=
  match cf with
  | Normal _ => c
  | Thrown e => Thrown e
  end.

Definition spawning {R : Type} (l : list (Prog unit)) (r : Run R) : Run R :=
  mkRun (final r) (completion r) (asked r) (l ++ spawned r).
Definition asking {R : Type} (q : Request) (r : Run R) : Run R :=
  mkRun (final r) (completion r) (q :: asked r) (spawned r).

(** [exec s p n w]: the call [p] run to completion from the world [w],
    its first suspension being the [n]-th of the schedule. *)
Fixpoint exec {R : Type} (s : Sched) (p : Prog R) (n : nat) (w : World)
  : Run R :=
  match p with
  | Ret r => mkRun w (Normal r) [] []
  | Throw e => mkRun w (Thrown e) [] []
  | Get k => exec s (k w) n w
  | Put w' k => exec s k n w'
  | Await q k => asking q (exec s (k (answer s n q)) (S n) (meanwhile s n w))
  | Spawn p' k =>
      let '(w1, rest1, spawned1) := start p' w in
      spawning (spawned1 ++ pending rest1) (exec s k n w1)
  end.

(** The value a call returns when it completes without suspending. *)
Definition returns {R : Type} (p : Prog R) (w : World) : option R :=
  match start p w with
  | (_, Ret r, _) => Some r
  | _ => None
  end.

(** The world a call leaves when control returns to its caller. *)
Definition after {R : Type} (p : Prog R) (w : World) : World :=
  fst (fst (start p w)).

(** ** The component *)

Definition HARDHAT_NETWORK_ID : string := "1337".
Definition ERROR_CODE_TX_REJECTED_BY_USER : Z := 4001.

Definition initialData : Data :=
  mkData None None None None VUndefined None.

(** [setInterval(callback, delay)].  Every timer of the component has the
    callback [() => this.updateBalance()], so a timer is its id and delay. *)
Definition setInterval (delay : Z) : Prog nat :=
  Get (fun w =>
    let id := nextInterval w in
    Put (mkWorld (data w) (provider w) (token w) (pollDataInterval w)
                 (networkVersion w) (listeners w)
                 (intervals w ++ [(id, delay)]) (S id) (console w))
        (Ret id)).

(** [clearInterval(handle)]; [clearInterval(undefined)] does nothing. *)
Definition clearInterval (handle : option nat) : Prog unit :=
  match handle with
  | None => Ret tt
  | Some id =>
      modify (fun w =>
        mkWorld (data w) (provider w) (token w) (pollDataInterval w)
                (networkVersion w) (listeners w)
                (filter (fun t => negb (Nat.eqb (fst t) id)) (intervals w))
                (nextInterval w) (console w))
  end.

(** [this.token.method(...)]: a TypeError when [this.token] is undefined. *)
Definition token_call (q : Request) : Prog (Response q) :=
  w <- get ;;
  match token w with
  | None => Throw (Js.TypeError "Cannot read property of undefined: token")
  | Some _ => await q
  end.

Definition dismissTransactionError : Prog unit :=
  modify (with_data (set_transactionError VUndefined)).

Definition dismissNetworkError : Prog unit :=
  modify (with_data (set_networkError None)).

Definition getRpcErrorMessage (error : JsVal) : Prog JsVal :=
  d <- read_prop error "data" ;;
  if Js.truthy d then read_prop d "message"
  else read_prop error "message".

(** [Object.assign(this.$data, initialData())] *)
Definition resetState : Prog unit :=
  modify (with_data (fun _ => initialData)).

(** [BigNumber.from(x)] of an undefined [x] throws. *)
Definition BigNumber_from (x : option Z) : Prog Z :=
  match x with
  | Some b => Ret b
  | None => Throw (Js.Error "invalid BigNumber value")
  end.

Definition balanceZero : Prog bool :=
  w <- get ;;
  b <- BigNumber_from (balance (data w)) ;;
  Ret (b =? 0).

Definition balanceGreaterZero : Prog bool :=
  w <- get ;;
  b <- BigNumber_from (balance (data w)) ;;
  Ret (b >? 0).

Definition checkNetwork : Prog bool :=
  w <- get ;;
  if Js.strict_eq_str (networkVersion w) HARDHAT_NETWORK_ID then Ret true
  else
    modify (with_data (set_networkError
              (Some "Please connect Metamask to Localhost:8545"))) ;;
    Ret false.

(** An async method without an [await]: its body runs in the caller. *)
Definition intializeEthers : Prog unit :=
  modify (set_provider (Some mkWeb3Provider)) ;;
  w <- get ;;
  match provider w with
  | Some pr => modify (set_token (Some (mkContract pr)))
  | None => Throw (Js.TypeError "Cannot read property of undefined: provider")
  end.

Definition getTokenData : Prog unit :=
  name <- token_call TokenName ;;
  symbol <- token_call TokenSymbol ;;
  modify (with_data (set_tokenData (Some (mkTokenData name symbol)))).

Definition updateBalance : Prog unit :=
  w <- get ;;
  b <- token_call (BalanceOf (selectedAddress (data w))) ;;
  modify (with_data (set_balance (Some b))).

Definition startPollingData : Prog unit :=
  id <- setInterval 1000 ;;
  modify (set_pollDataInterval (Some id)) ;;
  detach updateBalance.

Definition stopPollingData : Prog unit :=
  w <- get ;;
  clearInterval (pollDataInterval w) ;;
  modify (set_pollDataInterval None).

Definition componentWillUnmount : Prog unit :=
  stopPollingData.

Definition initialize (userAddress : option string) : Prog unit :=
  modify (with_data (set_selectedAddress userAddress)) ;;
  detach intializeEthers ;;
  detach getTokenData ;;
  startPollingData.

(** The callback registered for "accountsChanged";
    [([newAddress]) => ...] takes the head of the array it is given. *)
Definition accountsChanged (accounts : list string) : Prog unit :=
  stopPollingData ;;
  match hd_error accounts with
  | None => resetState
  | Some newAddress => initialize (Some newAddress)
  end.

(** The callback registered for "networkChanged". *)
Definition networkChanged : Prog unit :=
  stopPollingData ;;
  resetState.

Definition connectWallet : Prog unit :=
  accounts <- await Enable ;;
  ok <- checkNetwork ;;
  if negb ok then Ret tt
  else
    initialize (hd_error accounts) ;;
    modify (add_listener OnAccountsChanged) ;;
    modify (add_listener OnNetworkChanged).

(** The three blocks of [transferTokens]. *)
Definition transferTokens_try (to : string) (amount : Z) : Prog unit :=
  dismissTransactionError ;;
  tx <- token_call (Transfer to amount) ;;
  modify (with_data (set_txBeingSent (Some (hash tx)))) ;;
  receipt <- await (Wait tx) ;;
  (if status receipt =? 0 then Throw (Js.Error "Transaction failed")
   else Ret tt) ;;
  await_call updateBalance.

(** [return] in the catch block leaves the function through [finally];
    nothing follows the statement, so it is the end of the block. *)
Definition transferTokens_catch (error : JsVal) : Prog unit :=
  code <- read_prop error "code" ;;
  if Js.strict_eq_num code ERROR_CODE_TX_REJECTED_BY_USER then Ret tt
  else
    modify (console_error error) ;;
    modify (with_data (set_transactionError error)).

Definition transferTokens_finally : Prog unit :=
  modify (with_data (set_txBeingSent None)).

Definition transferTokens (to : string) (amount : Z) : Prog unit :=
  try_finally
    (try_catch (transferTokens_try to amount) transferTokens_catch)
    transferTokens_finally.

(** ** The page *)

Record System : Type := mkSystem {
  world : World;
  tasks : list (Prog unit) }.       (* the calls parked at an [await] *)

(** A wallet is injected, nothing is connected, the network is [version]. *)
Definition mounted (version : option string) : System :=
  mkSystem (mkWorld initialData None None None version [] [] 1%nat []) [].

(** A call from the page: it runs until it returns or parks. *)
Definition call (p : Prog unit) (sys : System) : System :=
  let '(w, rest, detached) := start p (world sys) in
  mkSystem w (tasks sys ++ detached ++ pending rest).

Fixpoint remove_nth {A : Type} (i : nat) (l : list A) : list A :=
  match l, i with
  | [], _ => []
  | _ :: rest, O => rest
  | x :: rest, S j => x :: remove_nth j rest
  end.

Definition resume (ans : forall q : Request, Settled (Response q))
    (p : Prog unit) : Prog unit :=
  match p with
  | Await q k => k (ans q)
  | _ => p
  end.

Definition emit (l : Listener) (handler : Prog unit) (sys : System) : System :=
  fold_left
    (fun acc l' =>
       match l, l' with
       | OnAccountsChanged, OnAccountsChanged => call handler acc
       | OnNetworkChanged, OnNetworkChanged => call handler acc
       | _, _ => acc
       end)
    (listeners (world sys)) sys.

Inductive Event : Type :=
| ClickConnect                          (* ConnectWallet emits "connect" *)
| SubmitTransfer (to : string) (amount : Z)  (* Transfer emits "transfer" *)
| Settle (i : nat) (ans : forall q : Request, Settled (Response q))
| AccountsChanged (accounts : list string)
| NetworkChanged (version : option string)
| Tick (id : nat).                      (* the interval [id] fires *)

Definition dispatch (ev : Event) (sys : System) : System :=
  match ev with
  | ClickConnect => call connectWallet sys
  | SubmitTransfer to amount => call (transferTokens to amount) sys
  | Settle i ans =>
      match nth_error (tasks sys) i with
      | Some p =>
          call (resume ans p)
               (mkSystem (world sys) (remove_nth i (tasks sys)))
      | None => sys
      end
  | AccountsChanged accounts =>
      emit OnAccountsChanged (accountsChanged accounts) sys
  | NetworkChanged version =>
      emit OnNetworkChanged networkChanged
           (mkSystem (set_networkVersion version (world sys)) (tasks sys))
  | Tick id =>
      if existsb (fun t => Nat.eqb (fst t) id) (intervals (world sys))
      then call updateBalance sys
      else sys
  end.

Definition play (evs : list Event) (sys : System) : System :=
  fold_left (fun acc ev => dispatch ev acc) evs sys.

(** ** Notions used in the statements *)

(** The test of the catch block: [error.code === 4001]. *)
Definition rejected_by_user (error : JsVal) : bool :=
  match Js.prop error "code" with
  | Some code => Js.strict_eq_num code ERROR_CODE_TX_REJECTED_BY_USER
  | None => false
  end.

(** Schedules on which no other task writes [transactionError], or
    [balance], while the call is parked. *)
Definition leaves_transactionError (s : Sched) : Prop :=
  forall i w,
    transactionError (data (meanwhile s i w)) = transactionError (data w).

Definition leaves_balance (s : Sched) : Prop :=
  forall i w, balance (data (meanwhile s i w)) = balance (data w).

(** Session absent implies TokenSnapshot, BalanceReading and
    PendingTransaction absent. *)
Definition session_invariant (w : World) : Prop :=
  selectedAddress (data w) = None ->
  tokenData (data w) = None /\ balance (data w) = None
  /\ txBeingSent (data w) = None.

(** ** Sample runs *)

Module Sample.

(** A wallet and a contract that grant everything. *)
Definition granting (q : Request) : Settled (Response q) :=
  match q with
  | Enable => Fulfilled ["0xf39Fd6e51aad88F6F4ce6aB8827279cffFb92266"%string]
  | TokenName => Fulfilled "My Hardhat Token"%string
  | TokenSymbol => Fulfilled "MHT"%string
  | BalanceOf _ => Fulfilled 1000000
  | Transfer _ _ => Fulfilled (mkTx "0x5c50")
  | Wait _ => Fulfilled (mkReceipt 1)
  | Microtask => Fulfilled tt
  end.

(** The same, but the transfer is rejected with [reason]. *)
Definition refusing (reason : JsVal) (q : Request) : Settled (Response q) :=
  match q as q' return Settled (Response q') with
  | Transfer _ _ => Rejected reason
  | q' => granting q'
  end.

(** The same, but the mined transaction reverted. *)
Definition reverting (q : Request) : Settled (Response q) :=
  match q as q' return Settled (Response q') with
  | Wait _ => Fulfilled (mkReceipt 0)
  | q' => granting q'
  end.

(** Nothing else runs while the call is parked. *)
Definition alone (ans : forall q : Request, Settled (Response q)) : Sched :=
  mkSched (fun _ => ans) (fun _ w => w).

(** The error MetaMask rejects with when the user declines to sign. *)
Definition user_denied : JsVal :=
  VObj [("code", VNum 4001);
        ("message",
         VStr "MetaMask Tx Signature: User denied transaction signature.")].

(** The error of a reverted call, as the wallet reports it. *)
Definition rpc_error : JsVal :=
  VObj [("code", VNum (-32603));
        ("message", VStr "Internal JSON-RPC error.");
        ("data",
         VObj [("code", VNum (-32000));
               ("message", VStr "revert Not enough tokens")])].

(** The component after a connect on the Hardhat network. *)
Definition connected : World :=
  final (exec (alone granting) connectWallet 0
              (world (mounted (Some HARDHAT_NETWORK_ID)))).

(** The same with a balance read in. *)
Definition loaded (b : Z) : World :=
  with_data (set_balance (Some b)) connected.

(** Two clicks on Connect before the wallet answers the first. *)
Definition two_clicks : list Event :=
  [ClickConnect; ClickConnect; Settle 0 granting; Settle 0 granting].

(** A connect on the wrong network, the network switched in the wallet,
    and a second connect. *)
Definition retry : list Event :=
  [ClickConnect; Settle 0 granting;
   NetworkChanged (Some HARDHAT_NETWORK_ID);
   ClickConnect; Settle 0 granting].

(** A connect, then the account removed from the wallet. *)
Definition removal : list Event :=
  [ClickConnect; Settle 0 granting; AccountsChanged []].

End Sample.

(** ** The rest of the component *)

(** [s.substring(start, stop)]: both indices are clamped to the length of
    [s], and swapped when [start] is the larger.  The strings of this file
    are addresses and hashes, one byte per code unit. *)
Definition substring (start stop : nat) (s : string) : string :=
  String.substring (Nat.min start stop)
                   (Nat.max start stop - Nat.min start stop) s.

Definition shortenAddress (addr : string) : string :=
  (substring 0 6 addr ++ "..." ++ substring 38 42 addr)%string.

(** ** More notions used in the statements *)

(** Schedules on which no other task changes the part [f] of the world
    while the call is parked. *)
Definition keeps {A : Type} (f : World -> A) (s : Sched) : Prop :=
  forall i w, f (meanwhile s i w) = f w.

(** ** More sample runs *)

Module Faults.

(** The transfer goes through, but the balance cannot be read. *)
Definition unreadable (reason : JsVal) (q : Request) : Settled (Response q) :=
  match q as q' return Settled (Response q') with
  | BalanceOf _ => Rejected reason
  | q' => Sample.granting q'
  end.

(** The wallet refuses the connection. *)
Definition closed (reason : JsVal) (q : Request) : Settled (Response q) :=
  match q as q' return Settled (Response q') with
  | Enable => Rejected reason
  | q' => Sample.granting q'
  end.

(** The name is read, the symbol is not. *)
Definition nameless (reason : JsVal) (q : Request) : Settled (Response q) :=
  match q as q' return Settled (Response q') with
  | TokenSymbol => Rejected reason
  | q' => Sample.granting q'
  end.

(** The error of a node that cannot be reached. *)
Definition network_down : JsVal :=
  VObj [("code", VNum (-32603)); ("message", VStr "Failed to fetch")].

(** The error of a user who closes the connection prompt. *)
Definition connection_denied : JsVal :=
  VObj [("code", VNum 4001);
        ("message", VStr "User rejected the request.")].

End Faults.

(** ** Invariants of the page *)

(** [safe I top p w]: when the call [p] runs from the world [w], and from
    then on is resumed only in worlds where [I] holds, [I] holds each time
    control goes back to the event loop.  [top] is false inside a detached
    call, which returns to its caller and not to the loop. *)
Fixpoint safe (I : World -> Prop) (top : bool) {R : Type} (p : Prog R)
    (w : World) : Prop :=
  match p with
  | Ret _ => top = true -> I w
  | Throw _ => top = true -> I w
  | Get k => safe I top (k w) w
  | Put w' k => safe I top k w'
  | Await q k =>
      (top = true -> I w)
      /\ forall (s : Settled (Response q)) (w' : World),
           I w' -> safe I true (k s) w'
  | Spawn p' k => safe I false p' w /\ safe I top k (after p' w)
  end.

(** What is left of a call keeps [I] whenever it is resumed. *)
Definition continues (I : World -> Prop) {R : Type} (p : Prog R) : Prop :=
  match p with
  | Await q k =>
      forall (s : Settled (Response q)) (w' : World),
        I w' -> safe I true (k s) w'
  | _ => True
  end.

(** A parked call that keeps [I] whenever it is resumed. *)
Definition resumable (I : World -> Prop) (p : Prog unit) : Prop :=
  match p with
  | Await q k =>
      forall (s : Settled (Response q)) (w' : World),
        I w' -> safe I true (k s) w'
  | _ => False
  end.

Definition sys_ok (I : World -> Prop) (sys : System) : Prop :=
  I (world sys) /\ Forall (resumable I) (tasks sys).

(** The live timers have distinct ids, all handed out already, and poll
    every 1000 ms; the stored handle, when there is one, is the id of a
    live timer. *)
Definition live_ok (live : list (nat * Z)) (next : nat) (handle : option nat)
  : Prop :=
  NoDup (map fst live)
  /\ (forall id, In id (map fst live) -> (id < next)%nat)
  /\ (forall id, handle = Some id -> In id (map fst live))
  /\ (forall t, In t live -> snd t = 1000).

Definition timers_ok (w : World) : Prop :=
  live_ok (intervals w) (nextInterval w) (pollDataInterval w).

(** The listeners are pairs of the two callbacks. *)
Definition paired (ls : list Listener) : Prop :=
  exists k, ls = List.concat (repeat [OnAccountsChanged; OnNetworkChanged] k).

(** Without a contract there is no selected address, no timer and no
    listener. *)
Definition unbound (binding : option Contract) (address : option string)
    (live : list (nat * Z)) (ls : list Listener) : Prop :=
  binding = None -> address = None /\ live = [] /\ ls = [].

Definition page_ok (w : World) : Prop :=
  timers_ok w
  /\ paired (listeners w)
  /\ unbound (token w) (selectedAddress (data w)) (intervals w) (listeners w).

(** ** The template *)

(** The four message and form components of the loaded page. *)
Inductive Panel : Type :=
| WaitingForTransactionMessage (txHash : string)
| TransactionErrorMessage (message : JsVal)
| NoTokensMessage
| TransferForm (symbol : string).

(** What the template renders: the branches of its [v-if] chain. *)
Inductive Screen : Type :=
| NoWalletDetected
| ConnectWalletScreen (networkError : option string)
| Loading
| Dapp (title : TokenData) (welcome : string) (amount : Z)
       (panels : list Panel).

(** [v-if="x"] for a string or undefined [x]. *)
Definition shown (x : option string) : bool :=
  match x with
  | Some s => negb (String.eqb s "")
  | None => false
  end.

(** [v-if="method()"]: the panel is rendered when the method returns
    true. *)
Definition holds (method : Prog bool) (w : World) : bool :=
  match returns method w with
  | Some b => b
  | None => false
  end.

(** The template, [injected] telling whether [window.ethereum] is defined
    ([checkForWallet] is its negation). *)
Definition template (injected : bool) (w : World) : Screen :=
  if negb injected then NoWalletDetected
  else if negb (shown (selectedAddress (data w))) then
    ConnectWalletScreen (networkError (data w))
  else
    match tokenData (data w), balance (data w), selectedAddress (data w) with
    | Some token, Some b, Some address =>
        Dapp token (shortenAddress address) b
          ((match txBeingSent (data w) with
            | Some txHash =>
                if shown (Some txHash)
                then [WaitingForTransactionMessage txHash] else []
            | None => []
            end)
           ++ (if Js.truthy (transactionError (data w))
               then [TransactionErrorMessage (transactionError (data w))]
               else [])
           ++ (if holds balanceZero w then [NoTokensMessage] else [])
           ++ (if holds balanceGreaterZero w
               then [TransferForm (symbol token)] else []))
    | _, _, _ => Loading
    end.

(** ** Counting the connects *)

(** [tame p w ls]: the call [p], run from the world [w] where the
    listeners are [ls] and resumed in any world later on, never registers
    or removes a listener and never asks the wallet for the accounts. *)
Fixpoint tame {R : Type} (p : Prog R) (w : World) (ls : list Listener)
  : Prop :=
  match p with
  | Ret _ => listeners w = ls
  | Throw _ => listeners w = ls
  | Get k => tame (k w) w ls
  | Put w' k => tame k w' ls
  | Await q k =>
      q <> Enable
      /\ listeners w = ls
      /\ forall (s : Settled (Response q)) (w' : World),
           tame (k s) w' (listeners w')
  | Spawn p' k => tame p' w ls /\ tame k (after p' w) ls
  end.

(** What is left of a tame call. *)
Definition tame_rest {R : Type} (p : Prog R) : Prop :=
  match p with
  | Await q k =>
      q <> Enable
      /\ forall (s : Settled (Response q)) (w' : World),
           tame (k s) w' (listeners w')
  | _ => True
  end.

(** The parked calls of the page: a [connectWallet] waiting for the
    wallet, or what is left of a tame call. *)
Definition task_ok (p : Prog unit) : Prop :=
  p = connectWallet \/ (suspended p = true /\ tame_rest p).

(** The event settles the [enable()] of a parked [connectWallet] with
    accounts, on the expected network: a connect that gets through. *)
Definition passes (ev : Event) (sys : System) : bool :=
  match ev with
  | Settle i ans =>
      match nth_error (tasks sys) i with
      | Some p =>
          match awaiting p with
          | Some Enable =>
              match ans Enable with
              | Fulfilled _ =>
                  Js.strict_eq_str (networkVersion (world sys))
                                   HARDHAT_NETWORK_ID
              | Rejected _ => false
              end
          | _ => false
          end
      | None => false
      end
  | _ => false
  end.

(** The number of connects that get through in a sequence of events. *)
Fixpoint connects (evs : list Event) (sys : System) : nat :=
  match evs with
  | [] => 0
  | ev :: rest =>
      ((if passes ev sys then 1 else 0) + connects rest (dispatch ev sys))%nat
  end.

(** [k] pairs of the two callbacks. *)
Definition pairs (k : nat) : list Listener :=
  List.concat (repeat [OnAccountsChanged; OnNetworkChanged] k).

(** Settles the next awaited promise, or reads [this.token], in the goal. *)
Ltac settle :=
  repeat (simpl;
    match goal with
    | |- context [match token ?w with _ => _ end] => destruct (token w)
    | |- context [match answer ?s ?n ?q with _ => _ end] =>
        destruct (answer s n q)
    | |- context [if ?b then _ else _] => destruct b
    end);
  simpl.

(** * Properties *)

Unset Implicit Arguments.

(** ** The interpreters and the combinators *)

Lemma exec_bind (s : Sched) (R S : Type) (p : Prog R) (f : R -> Prog S) :
  forall n w,
    exec s (bind p f) n w =
    let r1 := exec s p n w in
    match completion r1 with
    | Normal r => then_run r1 (exec s (f r) (next n r1) (final r1))
    | Thrown e => mkRun (final r1) (Thrown e) (asked r1) (spawned r1)
    end.
Proof.
  revert S f.
  induction p as [R r|R e|R k IH|R w' k IH|R q k IH|R p' _ k IH];
    intros S f n w; simpl.
  - unfold then_run, next; simpl. rewrite Nat.add_0_r.
    destruct (exec s (f r) n w); reflexivity.
  - reflexivity.
  - apply IH.
  - apply IH.
  - rewrite IH. simpl.
    destruct (completion _); unfold then_run, next, asking; simpl.
    + rewrite Nat.add_succ_r. reflexivity.
    + reflexivity.
  - destruct (start p' w) as [[w1 rest1] sp1]. rewrite IH. simpl.
    destruct (completion _); unfold then_run, next, spawning; simpl.
    + rewrite app_assoc. reflexivity.
    + reflexivity.
Qed.

Lemma exec_try_catch (s : Sched) (R : Type) (p : Prog R)
    (h : JsVal -> Prog R) :
  forall n w,
    exec s (try_catch p h) n w =
    let r1 := exec s p n w in
    match completion r1 with
    | Normal _ => r1
    | Thrown e => then_run r1 (exec s (h e) (next n r1) (final r1))
    end.
Proof.
  revert h.
  induction p as [R r|R e|R k IH|R w' k IH|R q k IH|R p' _ k IH];
    intros h n w; simpl.
  - reflexivity.
  - unfold then_run, next; simpl. rewrite Nat.add_0_r.
    destruct (exec s (h e) n w); reflexivity.
  - apply IH.
  - apply IH.
  - rewrite IH. simpl.
    destruct (completion _); unfold then_run, next, asking; simpl.
    + reflexivity.
    + rewrite Nat.add_succ_r. reflexivity.
  - destruct (start p' w) as [[w1 rest1] sp1]. rewrite IH. simpl.
    destruct (completion _); unfold then_run, next, spawning; simpl.
    + reflexivity.
    + rewrite app_assoc. reflexivity.
Qed.

Lemma exec_try_finally (s : Sched) (R : Type) (p : Prog R) (f : Prog unit) :
  forall n w,
    exec s (try_finally p f) n w =
    let r1 := exec s p n w in
    let r2 := exec s f (next n r1) (final r1) in
    mkRun (final r2) (finally_completion (completion r1) (completion r2))
          (asked r1 ++ asked r2) (spawned r1 ++ spawned r2).
Proof.
  induction p as [R r|R e|R k IH|R w' k IH|R q k IH|R p' _ k IH];
    intros n w; simpl.
  - rewrite exec_bind. unfold next; simpl. rewrite Nat.add_0_r.
    destruct (exec s f n w) as [wf [u|e] a sp]; simpl;
      unfold then_run; simpl; rewrite ?app_nil_r; reflexivity.
  - rewrite exec_bind. unfold next; simpl. rewrite Nat.add_0_r.
    destruct (exec s f n w) as [wf [u|e'] a sp]; simpl;
      unfold then_run; simpl; rewrite ?app_nil_r; reflexivity.
  - apply IH.
  - apply IH.
  - rewrite IH. unfold next, asking; simpl.
    rewrite Nat.add_succ_r. reflexivity.
  - destruct (start p' w) as [[w1 rest1] sp1]. rewrite IH.
    unfold next, spawning; simpl. rewrite app_assoc. reflexivity.
Qed.

Lemma exec_modify (s : Sched) (f : World -> World) (n : nat) (w : World) :
  exec s (modify f) n w = mkRun (f w) (Normal tt) [] [].
Proof. reflexivity. Qed.

(** ** transferTokens *)

Lemma exec_transferTokens (s : Sched) (n : nat) (to : string) (amount : Z)
    (w : World) :
  exec s (transferTokens to amount) n w =
  let r1 := exec s (try_catch (transferTokens_try to amount)
                              transferTokens_catch) n w in
  mkRun (with_data (set_txBeingSent None) (final r1)) (completion r1)
        (asked r1) (spawned r1).
Proof.
  unfold transferTokens. rewrite exec_try_finally. simpl.
  rewrite !app_nil_r. reflexivity.
Qed.

(** C1: on every execution of [transferTokens], whatever the promises it
    awaits are settled with and whatever else runs while it is parked,
    [txBeingSent] is undefined when the call completes; and the call either
    parks at the submission of the transfer with [transactionError] already
    cleared, or [this.token] is undefined and nothing is submitted. *)
Theorem transferTokens_clears_pending (s : Sched) (n : nat) (to : string)
    (amount : Z) (w : World) :
  txBeingSent (data (final (exec s (transferTokens to amount) n w))) = None
  /\ match start (transferTokens to amount) w with
     | (w1, Await q _, _) =>
         q = Transfer to amount /\ transactionError (data w1) = VUndefined
     | _ => token w = None
     end.
Proof.
  split.
  - rewrite exec_transferTokens. reflexivity.
  - unfold transferTokens, transferTokens_try, token_call. simpl.
    destruct (token w); simpl; auto.
Qed.

(** Nothing in the try block writes [transactionError] after it has
    cleared it. *)
Lemma try_leaves_error_unset (s : Sched) (n : nat) (to : string) (amount : Z)
    (w : World) :
  leaves_transactionError s ->
  transactionError
    (data (final (exec s (transferTokens_try to amount) n w))) = VUndefined.
Proof.
  intros Hs.
  unfold transferTokens_try, await_call, updateBalance, token_call.
  settle; repeat (rewrite Hs; simpl); reflexivity.
Qed.

(** An exception of the try block is handled by the catch block in the
    world the exception was thrown in, and the finally block follows. *)
Lemma catch_of_thrown (s : Sched) (n : nat) (to : string) (amount : Z)
    (w : World) (error : JsVal) :
  completion (exec s (transferTokens_try to amount) n w) = Thrown error ->
  exec s (transferTokens to amount) n w =
  let r1 := exec s (transferTokens_try to amount) n w in
  let r2 := exec s (transferTokens_catch error) (next n r1) (final r1) in
  mkRun (with_data (set_txBeingSent None) (final r2)) (completion r2)
        (asked r1 ++ asked r2) (spawned r1 ++ spawned r2).
Proof.
  intros H. rewrite exec_transferTokens, exec_try_catch. cbv zeta.
  rewrite H. reflexivity.
Qed.

(** C2: when the try block of [transferTokens] fails with an error whose
    [code] is 4001, the call completes normally, [transactionError] is
    still undefined, nothing is logged and [txBeingSent] is cleared; when
    it fails with any other error, either that error is recorded in
    [transactionError] or the call itself throws, so no other error is
    absorbed silently.  Stated for schedules on which no other task writes
    [transactionError] while the call is parked. *)
Theorem user_rejection_is_silent (s : Sched) (n : nat) (to : string)
    (amount : Z) (w : World) (error : JsVal) :
  leaves_transactionError s ->
  completion (exec s (transferTokens_try to amount) n w) = Thrown error ->
  let r := exec s (transferTokens to amount) n w in
  txBeingSent (data (final r)) = None
  /\ (rejected_by_user error = true ->
      completion r = Normal tt
      /\ transactionError (data (final r)) = VUndefined
      /\ console (final r)
         = console (final (exec s (transferTokens_try to amount) n w)))
  /\ (rejected_by_user error = false ->
      (transactionError (data (final r)) = error /\ error <> VUndefined)
      \/ exists e, completion r = Thrown e).
Proof.
  intros Hs H r. subst r. rewrite (catch_of_thrown s n to amount w error H).
  pose proof (try_leaves_error_unset s n to amount w Hs) as Hu.
  unfold transferTokens_catch, read_prop, rejected_by_user. simpl.
  split; [reflexivity|].
  destruct (Js.prop error "code") as [code|] eqn:Hc; simpl.
  - destruct (Js.strict_eq_num code ERROR_CODE_TX_REJECTED_BY_USER); simpl.
    + split; [intros _|discriminate]. auto.
    + split; [discriminate|intros _]. left. split; [reflexivity|].
      intros ->. discriminate.
  - split; [discriminate|intros _]. right. eexists. reflexivity.
Qed.

Lemma user_rejection_is_silent_witness :
  let s := Sample.alone (Sample.refusing Sample.user_denied) in
  let r := exec s (transferTokens "0x70997970" 5) 0 (Sample.loaded 100) in
  leaves_transactionError s
  /\ completion (exec s (transferTokens_try "0x70997970" 5) 0
                    (Sample.loaded 100)) = Thrown Sample.user_denied
  /\ completion r = Normal tt
  /\ transactionError (data (final r)) = VUndefined
  /\ txBeingSent (data (final r)) = None.
Proof.
  assert (Hs : leaves_transactionError
                 (Sample.alone (Sample.refusing Sample.user_denied)))
    by (intros i w; reflexivity).
  assert (Ht : completion
                 (exec (Sample.alone (Sample.refusing Sample.user_denied))
                       (transferTokens_try "0x70997970" 5) 0
                       (Sample.loaded 100)) = Thrown Sample.user_denied)
    by reflexivity.
  destruct (user_rejection_is_silent _ 0%nat "0x70997970" 5
              (Sample.loaded 100) _ Hs Ht) as (Hp & Hsilent & _).
  destruct (Hsilent eq_refl) as (Hc & He & _).
  split; [exact Hs|]. split; [exact Ht|].
  split; [exact Hc|]. split; [exact He|exact Hp].
Defined.

(** The try block on a receipt whose status is 0. *)
Lemma try_of_failed_receipt (s : Sched) (n : nat) (to : string) (amount : Z)
    (w : World) (c : Contract) (tx : Tx) (receipt : Receipt) :
  token w = Some c ->
  answer s n (Transfer to amount) = Fulfilled tx ->
  answer s (S n) (Wait tx) = Fulfilled receipt ->
  status receipt = 0 ->
  exec s (transferTokens_try to amount) n w =
  mkRun (meanwhile s (S n)
           (with_data (set_txBeingSent (Some (hash tx)))
              (meanwhile s n
                 (with_data (set_transactionError VUndefined) w))))
        (Thrown (Js.Error "Transaction failed"))
        [Transfer to amount; Wait tx] [].
Proof.
  intros Ht Htx Hr H0.
  unfold transferTokens_try, token_call. simpl.
  rewrite Ht. simpl. rewrite Htx. simpl. rewrite Hr. simpl.
  rewrite H0. reflexivity.
Qed.

(** C3: when the transfer is submitted and its receipt has status 0,
    [transferTokens] completes with [transactionError] set to the error
    [new Error("Transaction failed")], whose message is "Transaction
    failed", and with [txBeingSent] cleared; the only calls it awaited are
    the transfer and the confirmation, so no balance is read, and
    [balance] is what it was unless another task wrote it meanwhile. *)
Theorem failed_receipt_sets_generic_failure (s : Sched) (n : nat)
    (to : string) (amount : Z) (w : World) (tx : Tx) (receipt : Receipt) :
  token w <> None ->
  answer s n (Transfer to amount) = Fulfilled tx ->
  answer s (S n) (Wait tx) = Fulfilled receipt ->
  status receipt = 0 ->
  let r := exec s (transferTokens to amount) n w in
  completion r = Normal tt
  /\ transactionError (data (final r)) = Js.Error "Transaction failed"
  /\ returns (getRpcErrorMessage (transactionError (data (final r))))
             (final r) = Some (VStr "Transaction failed")
  /\ txBeingSent (data (final r)) = None
  /\ asked r = [Transfer to amount; Wait tx]
  /\ (leaves_balance s -> balance (data (final r)) = balance (data w)).
Proof.
  intros Ht Htx Hr H0 r. subst r.
  destruct (token w) as [c|] eqn:Hc; [clear Ht|congruence].
  pose proof (try_of_failed_receipt s n to amount w c tx receipt
                Hc Htx Hr H0) as Htry.
  rewrite (catch_of_thrown s n to amount w (Js.Error "Transaction failed"))
    by (rewrite Htry; reflexivity).
  rewrite Htry. simpl.
  repeat split.
  intros Hb. rewrite Hb. simpl. rewrite Hb. reflexivity.
Qed.

Lemma failed_receipt_sets_generic_failure_witness :
  let s := Sample.alone Sample.reverting in
  let r := exec s (transferTokens "0x70997970" 5) 0 (Sample.loaded 100) in
  token (Sample.loaded 100) <> None
  /\ status (mkReceipt 0) = 0
  /\ transactionError (data (final r)) = Js.Error "Transaction failed"
  /\ txBeingSent (data (final r)) = None
  /\ balance (data (final r)) = Some 100.
Proof.
  assert (Ht : token (Sample.loaded 100) <> None) by discriminate.
  destruct (failed_receipt_sets_generic_failure
              (Sample.alone Sample.reverting) 0%nat "0x70997970" 5
              (Sample.loaded 100) (mkTx "0x5c50") (mkReceipt 0)
              Ht eq_refl eq_refl eq_refl)
    as (_ & He & _ & Hp & _ & Hb).
  split; [exact Ht|]. split; [reflexivity|].
  split; [exact He|]. split; [exact Hp|].
  apply Hb. intros i w. reflexivity.
Defined.

(** What [getRpcErrorMessage] returns for an error whose properties can be
    read: [error.data.message] when [error.data] is truthy, [error.message]
    otherwise. *)
Lemma getRpcErrorMessage_returns (error code : JsVal) :
  Js.prop error "code" = Some code ->
  exists d,
    Js.prop error "data" = Some d
    /\ forall w,
         returns (getRpcErrorMessage error) w
         = if Js.truthy d then Js.prop d "message"
           else Js.prop error "message".
Proof.
  intros Hc. unfold getRpcErrorMessage, read_prop, returns.
  destruct error as [| |b|z|str|props]; simpl in Hc; try discriminate;
    simpl; try (eexists; split; [reflexivity|intros w; reflexivity]).
  exists (Js.lookup "data" props). split; [reflexivity|]. intros w.
  destruct (Js.lookup "data" props) as [| |b|z|str|props']; simpl;
    try reflexivity.
  - destruct b; reflexivity.
  - destruct (z =? 0); reflexivity.
  - destruct (String.eqb str ""); reflexivity.
Qed.

(** C4, as stated, fails: the wallet's error for a reverted call carries the
    specific message in [data.message], [getRpcErrorMessage] extracts it,
    and [transferTokens] records something else, the error itself. *)
Lemma recorded_failure_is_not_the_extracted_message :
  let s := Sample.alone (Sample.refusing Sample.rpc_error) in
  let r := exec s (transferTokens "0x70997970" 5) 0 (Sample.loaded 100) in
  rejected_by_user Sample.rpc_error = false
  /\ returns (getRpcErrorMessage Sample.rpc_error) (final r)
     = Some (VStr "revert Not enough tokens")
  /\ transactionError (data (final r)) <> VStr "revert Not enough tokens"
  /\ transactionError (data (final r)) = Sample.rpc_error.
Proof.
  simpl. repeat split. discriminate.
Qed.

(** C4, amended: for every error of the try block whose [code] is not 4001,
    [transferTokens] logs the error and records the error value itself in
    [transactionError]; the message of such an error is what
    [getRpcErrorMessage] returns for it, [error.data.message] when
    [error.data] is present (truthy) and [error.message] otherwise. *)
Theorem transfer_error_is_recorded_as_thrown (s : Sched) (n : nat)
    (to : string) (amount : Z) (w : World) (error code : JsVal) :
  completion (exec s (transferTokens_try to amount) n w) = Thrown error ->
  Js.prop error "code" = Some code ->
  Js.strict_eq_num code ERROR_CODE_TX_REJECTED_BY_USER = false ->
  let r := exec s (transferTokens to amount) n w in
  completion r = Normal tt
  /\ transactionError (data (final r)) = error
  /\ console (final r)
     = console (final (exec s (transferTokens_try to amount) n w)) ++ [error]
  /\ txBeingSent (data (final r)) = None
  /\ exists d,
       Js.prop error "data" = Some d
       /\ forall w',
            returns (getRpcErrorMessage error) w'
            = if Js.truthy d then Js.prop d "message"
              else Js.prop error "message".
Proof.
  intros H Hc Hne r. subst r.
  rewrite (catch_of_thrown s n to amount w error H).
  unfold transferTokens_catch, read_prop. simpl.
  rewrite Hc. simpl. rewrite Hne. simpl.
  repeat split. exact (getRpcErrorMessage_returns error code Hc).
Qed.

Lemma transfer_error_is_recorded_as_thrown_witness :
  let s := Sample.alone (Sample.refusing Sample.rpc_error) in
  let r := exec s (transferTokens "0x70997970" 5) 0 (Sample.loaded 100) in
  completion (exec s (transferTokens_try "0x70997970" 5) 0
                (Sample.loaded 100)) = Thrown Sample.rpc_error
  /\ Js.prop Sample.rpc_error "code" = Some (VNum (-32603))
  /\ Js.strict_eq_num (VNum (-32603)) ERROR_CODE_TX_REJECTED_BY_USER = false
  /\ transactionError (data (final r)) = Sample.rpc_error.
Proof.
  destruct (transfer_error_is_recorded_as_thrown
              (Sample.alone (Sample.refusing Sample.rpc_error)) 0%nat
              "0x70997970" 5 (Sample.loaded 100) Sample.rpc_error
              (VNum (-32603)) eq_refl eq_refl eq_refl)
    as (_ & He & _).
  split; [reflexivity|]. split; [reflexivity|]. split; [reflexivity|exact He].
Defined.

(** ** connectWallet *)

Lemma strict_eq_str_true (v : option string) (s : string) :
  Js.strict_eq_str v s = true <-> v = Some s.
Proof.
  destruct v as [x|]; simpl.
  - rewrite String.eqb_eq. split; congruence.
  - split; discriminate.
Qed.

(** C5: when the wallet has answered [enable()] and its network is not the
    expected one, [connectWallet] sets [networkError] and returns: the
    selected address is what it was (unset stays unset), no timer is
    installed, no listener is registered, nothing is read from the contract
    and no call is left running. *)
Theorem connect_on_wrong_network (s : Sched) (n : nat) (w : World)
    (accounts : list string) :
  answer s n Enable = Fulfilled accounts ->
  networkVersion (meanwhile s n w) <> Some HARDHAT_NETWORK_ID ->
  let w1 := meanwhile s n w in
  let r := exec s connectWallet n w in
  final r
  = with_data (set_networkError
                 (Some "Please connect Metamask to Localhost:8545")) w1
  /\ completion r = Normal tt
  /\ networkError (data (final r))
     = Some "Please connect Metamask to Localhost:8545"
  /\ selectedAddress (data (final r)) = selectedAddress (data w1)
  /\ intervals (final r) = intervals w1
  /\ pollDataInterval (final r) = pollDataInterval w1
  /\ listeners (final r) = listeners w1
  /\ token (final r) = token w1
  /\ asked r = [Enable]
  /\ spawned r = [].
Proof.
  intros Ha Hv w1 r. subst w1 r.
  unfold connectWallet, checkNetwork. simpl. rewrite Ha. simpl.
  destruct (Js.strict_eq_str (networkVersion (meanwhile s n w))
              HARDHAT_NETWORK_ID) eqn:E.
  - apply strict_eq_str_true in E. contradiction.
  - simpl. repeat split.
Qed.

Lemma connect_on_wrong_network_witness :
  let s := Sample.alone Sample.granting in
  let w := world (mounted (Some "1")) in
  let r := exec s connectWallet 0 w in
  networkVersion w <> Some HARDHAT_NETWORK_ID
  /\ networkError (data (final r))
     = Some "Please connect Metamask to Localhost:8545"
  /\ selectedAddress (data (final r)) = None
  /\ intervals (final r) = [].
Proof.
  assert (Hv : networkVersion (world (mounted (Some "1")))
               <> Some HARDHAT_NETWORK_ID) by discriminate.
  destruct (connect_on_wrong_network (Sample.alone Sample.granting) 0%nat
              (world (mounted (Some "1")))
              ["0xf39Fd6e51aad88F6F4ce6aB8827279cffFb92266"%string]
              eq_refl Hv)
    as (_ & _ & He & Ha & Hi & _).
  split; [exact Hv|]. split; [exact He|]. split; [exact Ha|exact Hi].
Defined.

(** C6, as stated, fails: a connect on network "1" sets [networkError], the
    wallet is switched to the expected network, the second connect
    succeeds, and [networkError] is still set. *)
Lemma network_error_survives_retry :
  let failed := play (firstn 2 Sample.retry) (mounted (Some "1")) in
  let sys := play Sample.retry (mounted (Some "1")) in
  networkError (data (world failed))
  = Some "Please connect Metamask to Localhost:8545"
  /\ networkVersion (world sys) = Some HARDHAT_NETWORK_ID
  /\ selectedAddress (data (world sys))
     = Some "0xf39Fd6e51aad88F6F4ce6aB8827279cffFb92266"
  /\ networkError (data (world sys)) <> None.
Proof.
  simpl. repeat split. discriminate.
Qed.

(** C6, amended: a connect on which the network matches leaves
    [networkError] as it was when the wallet answered; the field is cleared
    by [dismissNetworkError] and by [resetState]. *)
Theorem connect_retry_keeps_network_error (s : Sched) (n : nat) (w : World)
    (accounts : list string) :
  answer s n Enable = Fulfilled accounts ->
  networkVersion (meanwhile s n w) = Some HARDHAT_NETWORK_ID ->
  networkError (data (final (exec s connectWallet n w)))
  = networkError (data (meanwhile s n w))
  /\ networkError (data (after dismissNetworkError w)) = None
  /\ networkError (data (after resetState w)) = None.
Proof.
  intros Ha Hv.
  unfold connectWallet, checkNetwork. simpl. rewrite Ha. simpl.
  apply strict_eq_str_true in Hv. rewrite Hv. simpl.
  repeat split.
Qed.

Lemma connect_retry_keeps_network_error_witness :
  let s := Sample.alone Sample.granting in
  let w := with_data (set_networkError (Some "stale"))
             (world (mounted (Some HARDHAT_NETWORK_ID))) in
  networkVersion w = Some HARDHAT_NETWORK_ID
  /\ networkError (data (final (exec s connectWallet 0 w))) = Some "stale".
Proof.
  split; [reflexivity|].
  exact (proj1 (connect_retry_keeps_network_error
                  (Sample.alone Sample.granting) 0%nat
                  (with_data (set_networkError (Some "stale"))
                     (world (mounted (Some HARDHAT_NETWORK_ID))))
                  ["0xf39Fd6e51aad88F6F4ce6aB8827279cffFb92266"%string]
                  eq_refl eq_refl)).
Defined.

(** ** Polling *)

(** [startPollingData] adds a timer to the live ones, whatever they are,
    stores its handle, and parks the first balance read before it
    returns. *)
Lemma startPollingData_adds_a_timer (w : World) (c : Contract) :
  token w = Some c ->
  let '(w', rest, parked) := start startPollingData w in
  rest = Ret tt
  /\ intervals w' = intervals w ++ [(nextInterval w, 1000)]
  /\ pollDataInterval w' = Some (nextInterval w)
  /\ map awaiting parked = [Some (BalanceOf (selectedAddress (data w)))].
Proof.
  intros Ht. unfold startPollingData, detach, updateBalance, token_call.
  simpl. rewrite Ht. simpl. repeat split.
Qed.

(** [stopPollingData] clears the timer whose handle is stored, and only
    that one. *)
Lemma stopPollingData_clears_the_handle (w : World) :
  start stopPollingData w = (after stopPollingData w, Ret tt, [])
  /\ pollDataInterval (after stopPollingData w) = None
  /\ data (after stopPollingData w) = data w
  /\ intervals (after stopPollingData w)
     = match pollDataInterval w with
       | Some id => filter (fun t => negb (Nat.eqb (fst t) id)) (intervals w)
       | None => intervals w
       end.
Proof.
  unfold after, stopPollingData. simpl.
  destruct (pollDataInterval w); simpl; repeat split.
Qed.

(** A connect that starts with no live timer ends with exactly one, and
    the first balance read is parked before any timer can fire. *)
Lemma connect_installs_one_timer (s : Sched) (n : nat) (w : World)
    (accounts : list string) :
  answer s n Enable = Fulfilled accounts ->
  networkVersion (meanwhile s n w) = Some HARDHAT_NETWORK_ID ->
  intervals (meanwhile s n w) = [] ->
  let r := exec s connectWallet n w in
  let id := nextInterval (meanwhile s n w) in
  intervals (final r) = [(id, 1000)]
  /\ pollDataInterval (final r) = Some id
  /\ selectedAddress (data (final r)) = hd_error accounts
  /\ map awaiting (spawned r)
     = [Some TokenName; Some (BalanceOf (hd_error accounts))].
Proof.
  intros Ha Hv Hi.
  unfold connectWallet, checkNetwork. simpl. rewrite Ha. simpl.
  apply strict_eq_str_true in Hv. rewrite Hv. simpl.
  rewrite Hi. repeat split.
Qed.

(** C7 on the failing input: two clicks on Connect before the wallet
    answers, both answered with the same account on the expected network.
    Each resumed [connectWallet] runs [initialize], whose
    [startPollingData] installs a timer without clearing the stored one:
    two timers are live, the component holds the handle of the second only,
    and [stopPollingData] leaves the first one running. *)
Theorem overlapping_connects_leave_two_timers :
  let sys := play Sample.two_clicks (mounted (Some HARDHAT_NETWORK_ID)) in
  intervals (world sys) = [(1%nat, 1000); (2%nat, 1000)]
  /\ pollDataInterval (world sys) = Some 2%nat
  /\ intervals (after stopPollingData (world sys)) = [(1%nat, 1000)]
  /\ map awaiting (tasks sys)
     = [Some TokenName;
        Some (BalanceOf (Some "0xf39Fd6e51aad88F6F4ce6aB8827279cffFb92266"));
        Some TokenName;
        Some (BalanceOf (Some "0xf39Fd6e51aad88F6F4ce6aB8827279cffFb92266"))].
Proof.
  simpl. repeat split.
Qed.

(** ** The wallet's events *)

Lemma filter_drops_the_handle (id : nat) (l : list (nat * Z)) :
  ~ In id (map fst (filter (fun t => negb (Nat.eqb (fst t) id)) l)).
Proof.
  intros Hin. apply in_map_iff in Hin. destruct Hin as ((i, d) & Hi & Hf).
  apply filter_In in Hf. destruct Hf as (_ & Hne). simpl in *. subst i.
  rewrite Nat.eqb_refl in Hne. discriminate.
Qed.

(** The task [initialize] leaves parked at [this.token.name()] is the
    fetch of the token data. *)
Lemma getTokenData_fetches (s : Sched) (n : nat) (w : World) (c : Contract)
    (name symbol : string) :
  token w = Some c ->
  token (meanwhile s n w) = Some c ->
  answer s n TokenName = Fulfilled name ->
  answer s (S n) TokenSymbol = Fulfilled symbol ->
  tokenData (data (final (exec s getTokenData n w)))
  = Some (mkTokenData name symbol).
Proof.
  intros Ht Ht' Hn Hs. unfold getTokenData, token_call. simpl.
  rewrite Ht. simpl. rewrite Hn. simpl. rewrite Ht'. simpl.
  rewrite Hs. reflexivity.
Qed.

(** What the two callbacks do in any world.  Both begin with
    [stopPollingData], which clears the timer whose handle is stored.  On
    an "accountsChanged" with a first address the callback then runs
    [initialize] on that address: the address is selected, a new timer is
    installed and stored, and two calls are parked.  The first is the fetch
    of the token data: it asks for the name, then for the symbol, and
    writes both into [tokenData].  The second is the first balance read of
    the new address, which writes its answer into [balance].  On an
    "accountsChanged" without an address, and on "networkChanged", the
    callback runs [resetState]: the data is that of [initialData()] and
    nothing is parked. *)
Lemma wallet_callbacks_stop_then_reinitialize_or_reset (w : World) :
  let stopped := after stopPollingData w in
  (pollDataInterval stopped = None
   /\ match pollDataInterval w with
      | Some id => ~ In id (map fst (intervals stopped))
      | None => intervals stopped = intervals w
      end)
  /\ (forall newAddress others,
        start (accountsChanged (newAddress :: others)) w
        = start (initialize (Some newAddress)) stopped
        /\ let '(w', _, parked) :=
             start (accountsChanged (newAddress :: others)) w in
           selectedAddress (data w') = Some newAddress
           /\ pollDataInterval w' = Some (nextInterval w)
           /\ intervals w' = intervals stopped ++ [(nextInterval w, 1000)]
           /\ exists fetch poll,
                parked = [fetch; poll]
                /\ awaiting fetch = Some TokenName
                /\ awaiting poll = Some (BalanceOf (Some newAddress))
                /\ (forall s n w1 name symbol,
                      answer s n TokenName = Fulfilled name ->
                      answer s (S n) TokenSymbol = Fulfilled symbol ->
                      token (meanwhile s n w1) <> None ->
                      asked (exec s fetch n w1) = [TokenName; TokenSymbol]
                      /\ final (exec s fetch n w1)
                         = with_data
                             (set_tokenData
                                (Some (mkTokenData name symbol)))
                             (meanwhile s (S n) (meanwhile s n w1)))
                /\ (forall s n w1 b,
                      answer s n (BalanceOf (Some newAddress))
                      = Fulfilled b ->
                      final (exec s poll n w1)
                      = with_data (set_balance (Some b))
                          (meanwhile s n w1)))
  /\ start (accountsChanged []) w
     = (with_data (fun _ => initialData) stopped, Ret tt, [])
  /\ start networkChanged w
     = (with_data (fun _ => initialData) stopped, Ret tt, [])
  /\ data (with_data (fun _ => initialData) stopped) = initialData.
Proof.
  assert (Hparked : forall newAddress,
    (forall s n w1 name symbol,
       answer s n TokenName = Fulfilled name ->
       answer s (S n) TokenSymbol = Fulfilled symbol ->
       token (meanwhile s n w1) <> None ->
       asked (exec s (snd (fst (start getTokenData
                 (set_token (Some (mkContract mkWeb3Provider)) w)))) n w1)
       = [TokenName; TokenSymbol]
       /\ final (exec s (snd (fst (start getTokenData
                 (set_token (Some (mkContract mkWeb3Provider)) w)))) n w1)
          = with_data (set_tokenData (Some (mkTokenData name symbol)))
              (meanwhile s (S n) (meanwhile s n w1)))
    /\ (forall s n w1 b,
          answer s n (BalanceOf (Some newAddress)) = Fulfilled b ->
          final (exec s (snd (fst (start updateBalance
                  (with_data (set_selectedAddress (Some newAddress))
                     (set_token (Some (mkContract mkWeb3Provider)) w)))))
                  n w1)
          = with_data (set_balance (Some b)) (meanwhile s n w1))).
  { intros newAddress. split.
    - intros s n w1 name symbol Hn Hs Ht.
      unfold getTokenData, token_call. simpl. rewrite Hn. simpl.
      destruct (token (meanwhile s n w1)); [|congruence]. simpl.
      rewrite Hs. simpl. split; reflexivity.
    - intros s n w1 b Hb. unfold updateBalance, token_call. simpl.
      rewrite Hb. reflexivity. }
  unfold after, accountsChanged, networkChanged, stopPollingData. simpl.
  destruct (pollDataInterval w) as [id|]; simpl.
  - repeat split; try apply filter_drops_the_handle.
    eexists. eexists. split; [reflexivity|].
    split; [reflexivity|]. split; [reflexivity|].
    exact (Hparked newAddress).
  - repeat split.
    eexists. eexists. split; [reflexivity|].
    split; [reflexivity|]. split; [reflexivity|].
    exact (Hparked newAddress).
Qed.

(** On a page that has kept track of its timer (the only live timer, if
    any, is the one whose handle is stored) the callbacks halt the polling
    altogether: no timer is live after [stopPollingData], exactly one after
    the re-initialization, none after a reset. *)
Lemma wallet_callbacks_halt_tracked_polling (w : World) :
  intervals w
  = match pollDataInterval w with
    | Some id => [(id, 1000)]
    | None => []
    end ->
  intervals (after stopPollingData w) = []
  /\ (forall newAddress others,
        intervals (after (accountsChanged (newAddress :: others)) w)
        = [(nextInterval w, 1000)])
  /\ intervals (after (accountsChanged []) w) = []
  /\ intervals (after networkChanged w) = [].
Proof.
  intros Hw.
  unfold after, accountsChanged, networkChanged, stopPollingData. simpl.
  destruct (pollDataInterval w) as [id|]; simpl; rewrite Hw; simpl;
    rewrite ?Nat.eqb_refl; simpl; repeat split.
Qed.

(** C8 on the failing input: the page after the two overlapping connects
    of C7, where timers 1 and 2 are live and only the handle of timer 2 is
    stored.  Each callback begins with [stopPollingData], which clears the
    stored timer only: after an "accountsChanged" with a new address timer
    1 is live beside the new timer; after an "accountsChanged" without an
    address and after a "networkChanged" the data is reset and timer 1 is
    still live, and its next tick reads the balance of no address.  The
    polling is not halted. *)
Theorem wallet_events_leave_the_lost_timer_polling :
  let sys := play Sample.two_clicks (mounted (Some HARDHAT_NETWORK_ID)) in
  let changed := dispatch (AccountsChanged ["0x70997970"%string]) sys in
  let removed := dispatch (AccountsChanged []) sys in
  let switched := dispatch (NetworkChanged (Some "1"%string)) sys in
  intervals (world sys) = [(1%nat, 1000); (2%nat, 1000)]
  /\ pollDataInterval (world sys) = Some 2%nat
  /\ intervals (world changed) = [(1%nat, 1000); (4%nat, 1000)]
  /\ pollDataInterval (world changed) = Some 4%nat
  /\ data (world removed) = initialData
  /\ intervals (world removed) = [(1%nat, 1000)]
  /\ data (world switched) = initialData
  /\ intervals (world switched) = [(1%nat, 1000)]
  /\ awaiting (last (tasks (dispatch (Tick 1) removed)) (Ret tt))
     = Some (BalanceOf None).
Proof.
  simpl. repeat split.
Qed.

(** The same state is reached with a single [enable()] pending: a connect,
    the account removed, a click on Connect, an "accountsChanged" with an
    address while the wallet has not answered yet, and then the answer.
    The callback installs timer 2, the resumed [connectWallet] installs
    timer 3 over it. *)
Lemma one_pending_connect_also_loses_a_timer :
  let sys :=
    play [ClickConnect; Settle 0 Sample.granting; AccountsChanged [];
          ClickConnect; AccountsChanged ["0x70997970"%string];
          Settle 2 Sample.granting]
         (mounted (Some HARDHAT_NETWORK_ID)) in
  intervals (world sys) = [(2%nat, 1000); (3%nat, 1000)]
  /\ pollDataInterval (world sys) = Some 3%nat
  /\ intervals (world (dispatch (AccountsChanged []) sys))
     = [(2%nat, 1000)].
Proof.
  simpl. repeat split.
Qed.

(** ** resetState and the balance views *)

(** C9: [resetState] is one synchronous step, and in the world it leaves
    [tokenData], [balance], [txBeingSent] and [selectedAddress] are all
    undefined, as are the two error fields; the session invariant holds
    there. *)
Theorem resetState_is_atomic (w : World) :
  start resetState w = (with_data (fun _ => initialData) w, Ret tt, [])
  /\ data (after resetState w) = initialData
  /\ tokenData (data (after resetState w)) = None
  /\ balance (data (after resetState w)) = None
  /\ txBeingSent (data (after resetState w)) = None
  /\ selectedAddress (data (after resetState w)) = None
  /\ session_invariant (after resetState w).
Proof.
  unfold session_invariant, after. simpl. repeat split.
Qed.

(** C10: for a loaded balance [b >= 0], [balanceZero()] returns [b = 0] and
    [balanceGreaterZero()] returns its negation, so exactly one of them is
    true. *)
Theorem balance_views_are_exclusive (w : World) (b : Z) :
  balance (data w) = Some b ->
  0 <= b ->
  returns balanceZero w = Some (b =? 0)
  /\ returns balanceGreaterZero w = Some (negb (b =? 0))
  /\ xorb (b =? 0) (negb (b =? 0)) = true.
Proof.
  intros Hb Hpos. unfold returns, balanceZero, balanceGreaterZero. simpl.
  rewrite Hb. simpl. repeat split.
  - f_equal. destruct (Z.eqb_spec b 0) as [->|Hne]; simpl.
    + reflexivity.
    + apply Z.gtb_gt. lia.
  - destruct (b =? 0); reflexivity.
Qed.

Lemma balance_views_are_exclusive_witness :
  balance (data (Sample.loaded 100)) = Some 100
  /\ 0 <= 100
  /\ returns balanceZero (Sample.loaded 100) = Some false
  /\ returns balanceGreaterZero (Sample.loaded 100) = Some true.
Proof.
  assert (Hpos : 0 <= 100) by lia.
  destruct (balance_views_are_exclusive (Sample.loaded 100) 100
              eq_refl Hpos) as (Hz & Hg & _).
  split; [reflexivity|]. split; [exact Hpos|]. split; [exact Hz|exact Hg].
Defined.

(** ** The page as a whole *)

(** A connect followed by the removal of the account: the data is reset and
    no timer is left. *)
Lemma account_removal_resets :
  let sys := play Sample.removal (mounted (Some HARDHAT_NETWORK_ID)) in
  data (world sys) = initialData
  /\ intervals (world sys) = []
  /\ pollDataInterval (world sys) = None.
Proof.
  simpl. repeat split.
Qed.

(** The balance read that was parked when the account was removed is not
    cancelled: settled later, it writes [balance] into the reset state. *)
Lemma late_read_after_reset :
  let sys := play (Sample.removal ++ [Settle 1 Sample.granting])
                  (mounted (Some HARDHAT_NETWORK_ID)) in
  selectedAddress (data (world sys)) = None
  /\ balance (data (world sys)) = Some 1000000.
Proof.
  simpl. split; reflexivity.
Qed.

(** After the two overlapping connects the first timer survives the removal
    of the account, and its ticks keep reading the balance of no address. *)
Lemma leaked_timer_polls_after_reset :
  let sys := play (Sample.two_clicks ++ [AccountsChanged []; Tick 1])
                  (mounted (Some HARDHAT_NETWORK_ID)) in
  data (world sys) = initialData
  /\ intervals (world sys) = [(1%nat, 1000)]
  /\ pollDataInterval (world sys) = None
  /\ awaiting (last (tasks sys) (Ret tt)) = Some (BalanceOf None).
Proof.
  simpl. repeat split.
Qed.

(** * The rest of the component *)

(** ** shortenAddress *)

Lemma substring_length (n m : nat) (s : string) :
  String.length (String.substring n m s)
  = Nat.min m (String.length s - n).
Proof.
  revert n m. induction s as [|c s IH]; intros n m.
  - destruct n, m; reflexivity.
  - destruct n as [|n].
    + destruct m as [|m]; simpl; [reflexivity|].
      rewrite IH. rewrite Nat.sub_0_r. reflexivity.
    + simpl. apply IH.
Qed.

Lemma substring_prefix (p rest : string) :
  String.substring 0 (String.length p) (p ++ rest) = p.
Proof.
  induction p as [|c p IH]; simpl.
  - destruct rest; reflexivity.
  - rewrite IH. reflexivity.
Qed.

Lemma substring_skip (p rest : string) (m : nat) :
  String.substring (String.length p) m (p ++ rest)
  = String.substring 0 m rest.
Proof.
  induction p as [|c p IH]; simpl.
  - reflexivity.
  - exact IH.
Qed.

Lemma substring_all (s : string) (m : nat) :
  String.length s = m -> String.substring 0 m s = s.
Proof.
  intros <-.
  induction s as [|c s IH]; simpl; [reflexivity|]. rewrite IH. reflexivity.
Qed.

Lemma append_length (a b : string) :
  String.length (a ++ b) = (String.length a + String.length b)%nat.
Proof.
  induction a as [|c a IH]; simpl; [reflexivity|]. rewrite IH. reflexivity.
Qed.

Lemma append_assoc (a b c : string) :
  ((a ++ b) ++ c = a ++ (b ++ c))%string.
Proof.
  induction a as [|x a IH]; simpl; [reflexivity|]. rewrite IH. reflexivity.
Qed.

(** X1: an address of 42 characters is shortened to its first six
    characters, three dots and its last four. *)
Theorem shortenAddress_of_address (head middle tail : string) :
  String.length head = 6%nat ->
  String.length middle = 32%nat ->
  String.length tail = 4%nat ->
  shortenAddress (head ++ middle ++ tail) = (head ++ "..." ++ tail)%string.
Proof.
  intros Hh Hm Ht. unfold shortenAddress, substring.
  change (Nat.min 0 6) with 0%nat.
  change (Nat.max 0 6 - 0)%nat with 6%nat.
  change (Nat.max 38 42 - Nat.min 38 42)%nat with 4%nat.
  change (Nat.min 38 42) with 38%nat.
  rewrite <- Hh at 1. rewrite substring_prefix.
  rewrite <- (append_assoc head middle tail).
  replace 38%nat with (String.length (head ++ middle))
    by (rewrite append_length, Hh, Hm; reflexivity).
  rewrite substring_skip. rewrite (substring_all tail 4 Ht). reflexivity.
Qed.

Lemma shortenAddress_of_address_witness :
  shortenAddress "0xf39Fd6e51aad88F6F4ce6aB8827279cffFb92266" = "0xf39F...2266".
Proof.
  exact (shortenAddress_of_address
           "0xf39F" "d6e51aad88F6F4ce6aB8827279cffFb9" "2266"
           eq_refl eq_refl eq_refl).
Defined.

(** X2: whatever the string, the shortened form has the first
    [min 6 length] characters, three dots, and the characters from index 38
    up to 42: nothing of the tail for a string of at most 38 characters,
    and never more than 13 characters in all. *)
Theorem shortenAddress_length (addr : string) :
  String.length (shortenAddress addr)
  = (Nat.min 6 (String.length addr) + 3
     + Nat.min 4 (String.length addr - 38))%nat
  /\ (String.length (shortenAddress addr) <= 13)%nat.
Proof.
  assert (H : String.length (shortenAddress addr)
              = (Nat.min 6 (String.length addr) + 3
                 + Nat.min 4 (String.length addr - 38))%nat).
  { unfold shortenAddress, substring.
    rewrite !append_length, !substring_length. simpl.
    rewrite Nat.sub_0_r. lia. }
  split; [exact H|]. rewrite H. lia.
Qed.

(** ** transferTokens, the remaining paths *)

(** X3: a transfer that is submitted and confirmed with a status other
    than 0 reads the balance of the selected address and stores it;
    [transactionError] stays undefined and [txBeingSent] is cleared.
    Stated for schedules on which no other task writes the fields
    involved while the call is parked. *)
Theorem confirmed_transfer_refreshes_balance (s : Sched) (n : nat)
    (to : string) (amount : Z) (w : World) (c : Contract) (tx : Tx)
    (receipt : Receipt) (b : Z) :
  keeps token s ->
  keeps (fun w => selectedAddress (data w)) s ->
  leaves_balance s ->
  leaves_transactionError s ->
  token w = Some c ->
  answer s n (Transfer to amount) = Fulfilled tx ->
  answer s (S n) (Wait tx) = Fulfilled receipt ->
  status receipt <> 0 ->
  answer s (S (S n)) (BalanceOf (selectedAddress (data w))) = Fulfilled b ->
  let r := exec s (transferTokens to amount) n w in
  completion r = Normal tt
  /\ balance (data (final r)) = Some b
  /\ transactionError (data (final r)) = VUndefined
  /\ txBeingSent (data (final r)) = None
  /\ asked r = [Transfer to amount; Wait tx;
                BalanceOf (selectedAddress (data w)); Microtask].
Proof.
  intros Kt Ka Kb Ke Ht Htx Hr Hst Hb r. subst r.
  unfold keeps in Kt, Ka. simpl in Ka.
  apply Z.eqb_neq in Hst.
  unfold transferTokens, transferTokens_try, await_call, updateBalance,
    token_call. simpl.
  rewrite Ht. simpl. rewrite Htx. simpl. rewrite Hr. simpl.
  rewrite Hst. simpl.
  repeat (rewrite Kt; simpl). rewrite Ht. simpl.
  repeat (rewrite Ka; simpl). rewrite Hb. simpl.
  repeat split.
  - rewrite Kb. reflexivity.
  - repeat (rewrite Ke; simpl). reflexivity.
Qed.

Lemma confirmed_transfer_refreshes_balance_witness :
  let s := Sample.alone Sample.granting in
  let r := exec s (transferTokens "0x70997970" 5) 0 (Sample.loaded 100) in
  keeps token s
  /\ status (mkReceipt 1) <> 0
  /\ completion r = Normal tt
  /\ balance (data (final r)) = Some 1000000
  /\ transactionError (data (final r)) = VUndefined.
Proof.
  assert (Kt : keeps token (Sample.alone Sample.granting))
    by (intros i w; reflexivity).
  assert (Hst : status (mkReceipt 1) <> 0) by discriminate.
  destruct (confirmed_transfer_refreshes_balance
              (Sample.alone Sample.granting) 0%nat "0x70997970" 5
              (Sample.loaded 100) (mkContract mkWeb3Provider)
              (mkTx "0x5c50") (mkReceipt 1) 1000000
              Kt (fun i w => eq_refl) (fun i w => eq_refl)
              (fun i w => eq_refl) eq_refl eq_refl eq_refl Hst eq_refl)
    as (Hc & Hb & He & _).
  split; [exact Kt|]. split; [exact Hst|].
  split; [exact Hc|]. split; [exact Hb|exact He].
Defined.

(** X4: when the transfer is confirmed but the balance read that follows
    is rejected, the reason of that rejection is what [transferTokens]
    records in [transactionError] (unless its code is 4001); the balance is
    not written. *)
Theorem failed_refresh_is_recorded_as_transfer_error (s : Sched) (n : nat)
    (to : string) (amount : Z) (w : World) (c : Contract) (tx : Tx)
    (receipt : Receipt) (reason code : JsVal) :
  keeps token s ->
  keeps (fun w => selectedAddress (data w)) s ->
  leaves_balance s ->
  token w = Some c ->
  answer s n (Transfer to amount) = Fulfilled tx ->
  answer s (S n) (Wait tx) = Fulfilled receipt ->
  status receipt <> 0 ->
  answer s (S (S n)) (BalanceOf (selectedAddress (data w)))
  = Rejected reason ->
  Js.prop reason "code" = Some code ->
  Js.strict_eq_num code ERROR_CODE_TX_REJECTED_BY_USER = false ->
  let r := exec s (transferTokens to amount) n w in
  completion r = Normal tt
  /\ transactionError (data (final r)) = reason
  /\ balance (data (final r)) = balance (data w)
  /\ txBeingSent (data (final r)) = None.
Proof.
  intros Kt Ka Kb Ht Htx Hr Hst Hb Hc Hne r. subst r.
  unfold keeps in Kt, Ka. simpl in Ka.
  apply Z.eqb_neq in Hst.
  unfold transferTokens, transferTokens_try, await_call, updateBalance,
    token_call, transferTokens_catch, read_prop. simpl.
  rewrite Ht. simpl. rewrite Htx. simpl. rewrite Hr. simpl.
  rewrite Hst. simpl.
  repeat (rewrite Kt; simpl). rewrite Ht. simpl.
  repeat (rewrite Ka; simpl). rewrite Hb. simpl.
  rewrite Hc. simpl. rewrite Hne. simpl.
  repeat split.
  repeat (rewrite Kb; simpl). reflexivity.
Qed.

Lemma failed_refresh_is_recorded_as_transfer_error_witness :
  let s := Sample.alone (Faults.unreadable Faults.network_down) in
  let r := exec s (transferTokens "0x70997970" 5) 0 (Sample.loaded 100) in
  keeps token s
  /\ status (mkReceipt 1) <> 0
  /\ transactionError (data (final r)) = Faults.network_down
  /\ balance (data (final r)) = Some 100.
Proof.
  assert (Kt : keeps token
                 (Sample.alone (Faults.unreadable Faults.network_down)))
    by (intros i w; reflexivity).
  assert (Hst : status (mkReceipt 1) <> 0) by discriminate.
  destruct (failed_refresh_is_recorded_as_transfer_error
              (Sample.alone (Faults.unreadable Faults.network_down)) 0%nat
              "0x70997970" 5 (Sample.loaded 100)
              (mkContract mkWeb3Provider) (mkTx "0x5c50") (mkReceipt 1)
              Faults.network_down (VNum (-32603))
              Kt (fun i w => eq_refl) (fun i w => eq_refl)
              eq_refl eq_refl eq_refl Hst eq_refl eq_refl eq_refl)
    as (_ & He & Hb & _).
  split; [exact Kt|]. split; [exact Hst|]. split; [exact He|exact Hb].
Defined.

(** X5: a transfer asked for before [this.token] exists submits nothing:
    no call is awaited, the TypeError of the missing contract is logged and
    recorded in [transactionError], whatever error was there before, and
    the call completes normally. *)
Theorem transfer_before_initialization (s : Sched) (n : nat) (to : string)
    (amount : Z) (w : World) :
  token w = None ->
  let r := exec s (transferTokens to amount) n w in
  completion r = Normal tt
  /\ asked r = []
  /\ spawned r = []
  /\ exists error,
       transactionError (data (final r)) = error
       /\ Js.prop error "name" = Some (VStr "TypeError")
       /\ console (final r) = console w ++ [error]
       /\ final r
          = with_data (set_txBeingSent None)
              (with_data (set_transactionError error)
                 (console_error error
                    (with_data (set_transactionError VUndefined) w))).
Proof.
  intros Ht r. subst r.
  unfold transferTokens, transferTokens_try, token_call,
    transferTokens_catch, read_prop. simpl.
  rewrite Ht. simpl. repeat split.
  eexists. repeat split.
Qed.

Lemma transfer_before_initialization_witness :
  let w := world (mounted (Some HARDHAT_NETWORK_ID)) in
  let r := exec (Sample.alone Sample.granting)
                (transferTokens "0x70997970" 5) 0 w in
  token w = None /\ asked r = [] /\ completion r = Normal tt.
Proof.
  destruct (transfer_before_initialization
              (Sample.alone Sample.granting) 0%nat "0x70997970" 5
              (world (mounted (Some HARDHAT_NETWORK_ID))) eq_refl)
    as (Hc & Ha & _).
  split; [reflexivity|]. split; [exact Ha|exact Hc].
Defined.

(** ** The reads of the contract *)

(** X6: [updateBalance] asks for the balance of the address selected when
    it is called, and nothing changes until the answer comes.  A fulfilled
    answer is written into [balance] of whatever the component has become
    meanwhile, another account or a reset one included; a rejected answer
    changes nothing and is thrown. *)
Theorem updateBalance_writes_the_answer (s : Sched) (n : nat) (w : World)
    (c : Contract) :
  token w = Some c ->
  let q := BalanceOf (selectedAddress (data w)) in
  let r := exec s updateBalance n w in
  after updateBalance w = w
  /\ awaiting (snd (fst (start updateBalance w))) = Some q
  /\ asked r = [q]
  /\ match answer s n q with
     | Fulfilled b =>
         completion r = Normal tt
         /\ final r = with_data (set_balance (Some b)) (meanwhile s n w)
     | Rejected reason =>
         completion r = Thrown reason /\ final r = meanwhile s n w
     end.
Proof.
  intros Ht q r. subst q r.
  unfold after, updateBalance, token_call. simpl. rewrite Ht. simpl.
  split; [reflexivity|]. split; [reflexivity|].
  destruct (answer s n (BalanceOf (selectedAddress (data w))));
    simpl; repeat split.
Qed.

Lemma updateBalance_writes_the_answer_witness :
  let s := mkSched (fun _ => Sample.granting)
                   (fun _ => after resetState) in
  let r := exec s updateBalance 0 (Sample.loaded 100) in
  token (Sample.loaded 100) = Some (mkContract mkWeb3Provider)
  /\ asked r
     = [BalanceOf (Some "0xf39Fd6e51aad88F6F4ce6aB8827279cffFb92266")]
  /\ selectedAddress (data (final r)) = None
  /\ balance (data (final r)) = Some 1000000.
Proof.
  destruct (updateBalance_writes_the_answer
              (mkSched (fun _ => Sample.granting)
                       (fun _ => after resetState))
              0%nat (Sample.loaded 100) (mkContract mkWeb3Provider)
              eq_refl)
    as (_ & _ & Ha & Hf).
  simpl in Hf. destruct Hf as (_ & Hf).
  split; [reflexivity|]. split; [exact Ha|].
  split.
  - exact (f_equal (fun x => selectedAddress (data x)) Hf).
  - exact (f_equal (fun x => balance (data x)) Hf).
Defined.

(** X7: [getTokenData] writes [tokenData] only when both reads are
    fulfilled, and then with the two answers; when the name is rejected the
    symbol is never asked for; and when the call throws, [tokenData] is
    what it was, unless another task wrote it meanwhile. *)
Theorem getTokenData_is_all_or_nothing (s : Sched) (n : nat) (w : World) :
  let r := exec s getTokenData n w in
  (completion r = Normal tt ->
   exists name symbol,
     answer s n TokenName = Fulfilled name
     /\ answer s (S n) TokenSymbol = Fulfilled symbol
     /\ tokenData (data (final r)) = Some (mkTokenData name symbol)
     /\ asked r = [TokenName; TokenSymbol])
  /\ (forall reason,
        completion r = Thrown reason ->
        keeps (fun w => tokenData (data w)) s ->
        tokenData (data (final r)) = tokenData (data w))
  /\ (forall reason,
        answer s n TokenName = Rejected reason ->
        In TokenSymbol (asked r) -> False).
Proof.
  intros r. subst r. unfold getTokenData, token_call. simpl.
  destruct (token w) as [c|]; simpl.
  - destruct (answer s n TokenName) as [name|e1]; simpl.
    + destruct (token (meanwhile s n w)) as [c'|]; simpl.
      * destruct (answer s (S n) TokenSymbol) as [symbol|e2]; simpl.
        -- split; [|split].
           ++ intros _. exists name, symbol. repeat split.
           ++ discriminate.
           ++ discriminate.
        -- split; [discriminate|split].
           ++ intros reason _ K. unfold keeps in K. simpl in K.
              rewrite !K. reflexivity.
           ++ discriminate.
      * split; [discriminate|split].
        -- intros reason _ K. unfold keeps in K. simpl in K.
           rewrite K. reflexivity.
        -- discriminate.
    + split; [discriminate|split].
      * intros reason _ K. unfold keeps in K. simpl in K.
        rewrite K. reflexivity.
      * intros reason _ [H|[]]. discriminate.
  - split; [discriminate|split].
    + reflexivity.
    + intros reason _ [].
Qed.

Lemma getTokenData_is_all_or_nothing_witness :
  let ok := exec (Sample.alone Sample.granting) getTokenData 0
                 Sample.connected in
  let ko := exec (Sample.alone (Faults.nameless Faults.network_down))
                 getTokenData 0 Sample.connected in
  completion ok = Normal tt
  /\ tokenData (data (final ok)) = Some (mkTokenData "My Hardhat Token" "MHT")
  /\ completion ko = Thrown Faults.network_down
  /\ keeps (fun w => tokenData (data w))
           (Sample.alone (Faults.nameless Faults.network_down))
  /\ tokenData (data (final ko)) = None.
Proof.
  destruct (getTokenData_is_all_or_nothing
              (Sample.alone Sample.granting) 0%nat Sample.connected)
    as (Hok & _).
  destruct (Hok eq_refl) as (name & symbol & Hn & Hs & Ht & _).
  injection Hn as <-. injection Hs as <-.
  destruct (getTokenData_is_all_or_nothing
              (Sample.alone (Faults.nameless Faults.network_down)) 0%nat
              Sample.connected)
    as (_ & Hko & _).
  assert (K : keeps (fun w => tokenData (data w))
                    (Sample.alone (Faults.nameless Faults.network_down)))
    by (intros i w; reflexivity).
  split; [reflexivity|]. split; [exact Ht|]. split; [reflexivity|].
  split; [exact K|].
  exact (Hko Faults.network_down eq_refl K).
Defined.

(** ** connectWallet, the remaining paths *)

(** X8: a connect on the expected network, with whatever accounts the
    wallet returns: the first account, or undefined for an empty list, is
    selected; the provider and the contract are created; one timer is added
    to the live ones and stored; one pair of listeners is appended to those
    already registered; the token data and the first balance are being
    read; the other fields of the data are untouched. *)
Theorem connect_on_expected_network (s : Sched) (n : nat) (w : World)
    (accounts : list string) :
  answer s n Enable = Fulfilled accounts ->
  networkVersion (meanwhile s n w) = Some HARDHAT_NETWORK_ID ->
  let w1 := meanwhile s n w in
  let r := exec s connectWallet n w in
  completion r = Normal tt
  /\ data (final r) = set_selectedAddress (hd_error accounts) (data w1)
  /\ token (final r) = Some (mkContract mkWeb3Provider)
  /\ intervals (final r) = intervals w1 ++ [(nextInterval w1, 1000)]
  /\ pollDataInterval (final r) = Some (nextInterval w1)
  /\ nextInterval (final r) = S (nextInterval w1)
  /\ listeners (final r)
     = listeners w1 ++ [OnAccountsChanged; OnNetworkChanged]
  /\ asked r = [Enable]
  /\ map awaiting (spawned r)
     = [Some TokenName; Some (BalanceOf (hd_error accounts))].
Proof.
  intros Ha Hv w1 r. subst w1 r.
  unfold connectWallet, checkNetwork. simpl. rewrite Ha. simpl.
  apply strict_eq_str_true in Hv. rewrite Hv. simpl.
  rewrite <- app_assoc. repeat split.
Qed.

Lemma connect_on_expected_network_witness :
  let s := Sample.alone (fun q =>
             match q as q' return Settled (Response q') with
             | Enable => Fulfilled []
             | q' => Sample.granting q'
             end) in
  let w := world (mounted (Some HARDHAT_NETWORK_ID)) in
  let r := exec s connectWallet 0 w in
  networkVersion w = Some HARDHAT_NETWORK_ID
  /\ selectedAddress (data (final r)) = None
  /\ intervals (final r) = [(1%nat, 1000)]
  /\ map awaiting (spawned r) = [Some TokenName; Some (BalanceOf None)].
Proof.
  destruct (connect_on_expected_network
              (Sample.alone (fun q =>
                 match q as q' return Settled (Response q') with
                 | Enable => Fulfilled []
                 | q' => Sample.granting q'
                 end))
              0%nat (world (mounted (Some HARDHAT_NETWORK_ID))) []
              eq_refl eq_refl)
    as (_ & Hd & _ & Hi & _ & _ & _ & _ & Hs).
  split; [reflexivity|].
  split; [rewrite Hd; reflexivity|]. split; [exact Hi|exact Hs].
Defined.

(** X9: when the wallet rejects [enable()], [connectWallet] throws the
    reason and has done nothing: no error message is set, nothing is
    selected, no timer, no listener, no read. *)
Theorem connect_refused_by_wallet (s : Sched) (n : nat) (w : World)
    (reason : JsVal) :
  answer s n Enable = Rejected reason ->
  let r := exec s connectWallet n w in
  completion r = Thrown reason
  /\ final r = meanwhile s n w
  /\ asked r = [Enable]
  /\ spawned r = []
  /\ after connectWallet w = w.
Proof.
  intros Ha r. subst r. unfold after, connectWallet. simpl.
  rewrite Ha. simpl. repeat split.
Qed.

Lemma connect_refused_by_wallet_witness :
  let s := Sample.alone (Faults.closed Faults.connection_denied) in
  let w := world (mounted (Some HARDHAT_NETWORK_ID)) in
  let r := exec s connectWallet 0 w in
  completion r = Thrown Faults.connection_denied /\ final r = w.
Proof.
  destruct (connect_refused_by_wallet
              (Sample.alone (Faults.closed Faults.connection_denied)) 0%nat
              (world (mounted (Some HARDHAT_NETWORK_ID)))
              Faults.connection_denied eq_refl)
    as (Hc & Hf & _).
  split; [exact Hc|exact Hf].
Defined.

(** ** Invariants of the page *)

Lemma safe_start (I : World -> Prop) (R : Type) (p : Prog R) :
  forall top w,
    safe I top p w ->
    (top = true -> I (after p w))
    /\ continues I (snd (fst (start p w)))
    /\ Forall (resumable I) (snd (start p w)).
Proof.
  induction p as [R r|R e|R k IH|R w' k IH|R q k IH|R p' IHp' k IH];
    intros top w H; simpl in H.
  - unfold after; simpl. split; [exact H|]. split; [exact Logic.I|constructor].
  - unfold after; simpl. split; [exact H|]. split; [exact Logic.I|constructor].
  - apply (IH w top w H).
  - apply (IH top w' H).
  - unfold after; simpl. destruct H as (H1 & H2).
    split; [exact H1|]. split; [exact H2|constructor].
  - destruct H as (Hp' & Hk).
    destruct (IHp' false w Hp') as (_ & Hr1 & Hs1).
    destruct (IH top (after p' w) Hk) as (Hi & Hr2 & Hs2).
    unfold after in *. simpl.
    destruct (start p' w) as [[w1 rest1] sp1] eqn:E1. simpl in *.
    destruct (start k w1) as [[w2 rest2] sp2] eqn:E2. simpl in *.
    split; [exact Hi|]. split; [exact Hr2|].
    apply Forall_app. split; [exact Hs1|].
    apply Forall_app. split; [|exact Hs2].
    unfold pending. destruct rest1; simpl; constructor; [|constructor].
    exact Hr1.
Qed.

Lemma Forall_remove_nth (A : Type) (P : A -> Prop) (l : list A) :
  forall i, Forall P l -> Forall P (remove_nth i l).
Proof.
  induction l as [|x l IH]; intros i H.
  - destruct i; constructor.
  - inversion H; subst. destruct i; simpl; [assumption|].
    constructor; [assumption|apply IH; assumption].
Qed.

Section Invariant.

Variable I : World -> Prop.

(** Every way into the component keeps [I]. *)
Hypothesis connect_safe : forall w, I w -> safe I true connectWallet w.
Hypothesis transfer_safe :
  forall to amount w, I w -> safe I true (transferTokens to amount) w.
Hypothesis accounts_safe :
  forall accounts w, I w -> safe I true (accountsChanged accounts) w.
Hypothesis network_safe : forall w, I w -> safe I true networkChanged w.
Hypothesis tick_safe : forall w, I w -> safe I true updateBalance w.
Hypothesis version_safe :
  forall version w, I w -> I (set_networkVersion version w).

Lemma call_ok (p : Prog unit) (sys : System) :
  sys_ok I sys -> safe I true p (world sys) -> sys_ok I (call p sys).
Proof.
  intros (Hw & Ht) Hp.
  destruct (safe_start I unit p true (world sys) Hp) as (Hi & Hr & Hs).
  unfold call, after in *.
  destruct (start p (world sys)) as [[w rest] sp]. simpl in *.
  split; [apply Hi; reflexivity|].
  apply Forall_app. split; [exact Ht|].
  apply Forall_app. split; [exact Hs|].
  unfold pending. destruct rest; simpl; constructor; [|constructor].
  exact Hr.
Qed.

Lemma emit_ok (l : Listener) (handler : Prog unit) (sys : System) :
  (forall w, I w -> safe I true handler w) ->
  sys_ok I sys -> sys_ok I (emit l handler sys).
Proof.
  intros Hh. unfold emit. generalize (listeners (world sys)).
  intros ls. revert sys.
  induction ls as [|l' ls IH]; intros sys Hsys; simpl; [exact Hsys|].
  apply IH.
  destruct l, l'; try exact Hsys;
    apply call_ok; try exact Hsys; apply Hh; apply Hsys.
Qed.

Lemma dispatch_ok (ev : Event) (sys : System) :
  sys_ok I sys -> sys_ok I (dispatch ev sys).
Proof.
  intros Hsys. pose proof Hsys as (Hw & Ht).
  destruct ev as [|to amount|i ans|accounts|version|id]; simpl.
  - apply call_ok; [exact Hsys|apply connect_safe; exact Hw].
  - apply call_ok; [exact Hsys|apply transfer_safe; exact Hw].
  - destruct (nth_error (tasks sys) i) as [p|] eqn:E; [|exact Hsys].
    apply nth_error_In in E.
    pose proof (proj1 (Forall_forall _ _) Ht p E) as Hp.
    apply call_ok.
    + split; [exact Hw|]. apply Forall_remove_nth. exact Ht.
    + destruct p; simpl in Hp; try contradiction.
      simpl. apply Hp. exact Hw.
  - apply emit_ok; [apply accounts_safe|exact Hsys].
  - apply emit_ok; [apply network_safe|].
    split; [apply version_safe; exact Hw|exact Ht].
  - destruct (existsb _ _); [|exact Hsys].
    apply call_ok; [exact Hsys|apply tick_safe; exact Hw].
Qed.

Lemma play_ok (evs : list Event) :
  forall sys, sys_ok I sys -> sys_ok I (play evs sys).
Proof.
  unfold play. induction evs as [|ev evs IH]; intros sys Hsys; simpl.
  - exact Hsys.
  - apply IH. apply dispatch_ok. exact Hsys.
Qed.

End Invariant.

(** *** The invariant of this page *)

Lemma live_add (live : list (nat * Z)) (next : nat) (handle : option nat) :
  live_ok live next handle ->
  live_ok (live ++ [(next, 1000)]) (S next) (Some next).
Proof.
  intros (Hd & Hlt & _ & Hms). unfold live_ok.
  rewrite map_app. simpl. repeat split.
  - apply NoDup_app; [exact Hd|repeat constructor; intros []|].
    intros id Hin [<-|[]]. apply Hlt in Hin. lia.
  - intros id Hin. apply in_app_or in Hin. destruct Hin as [Hin|[<-|[]]].
    + apply Hlt in Hin. lia.
    + lia.
  - intros id [= <-]. apply in_or_app. right. left. reflexivity.
  - intros t Hin. apply in_app_or in Hin. destruct Hin as [Hin|[<-|[]]].
    + apply Hms. exact Hin.
    + reflexivity.
Qed.

Lemma live_clear (live : list (nat * Z)) (next : nat) (handle : option nat)
    (id : nat) :
  live_ok live next handle ->
  live_ok (filter (fun t => negb (Nat.eqb (fst t) id)) live) next None.
Proof.
  intros (Hd & Hlt & _ & Hms). unfold live_ok.
  assert (Hsub : forall x,
             In x (map fst (filter (fun t => negb (Nat.eqb (fst t) id)) live))
             -> In x (map fst live)).
  { intros x Hin. apply in_map_iff in Hin. destruct Hin as (t & <- & Hin).
    apply filter_In in Hin. apply in_map. apply Hin. }
  repeat split.
  - clear Hsub Hlt Hms. induction live as [|t live IH]; simpl.
    + constructor.
    + inversion Hd; subst.
      destruct (negb (Nat.eqb (fst t) id)); simpl; [|apply IH; assumption].
      constructor; [|apply IH; assumption].
      intros Hin. apply in_map_iff in Hin. destruct Hin as (t' & E & Hin).
      apply filter_In in Hin. apply H1. rewrite <- E. apply in_map.
      apply Hin.
  - intros x Hin. apply Hlt, Hsub, Hin.
  - discriminate.
  - intros t Hin. apply filter_In in Hin. apply Hms, Hin.
Qed.

Lemma live_forget (live : list (nat * Z)) (next : nat) (handle : option nat) :
  live_ok live next handle -> live_ok live next None.
Proof.
  intros (Hd & Hlt & _ & Hms). repeat split; try assumption. discriminate.
Qed.

Lemma paired_add (ls : list Listener) :
  paired ls -> paired ((ls ++ [OnAccountsChanged]) ++ [OnNetworkChanged]).
Proof.
  intros (k & ->). exists (S k). rewrite <- app_assoc. simpl.
  change [OnAccountsChanged; OnNetworkChanged]
    with (List.concat (repeat [OnAccountsChanged; OnNetworkChanged] 1)).
  rewrite <- concat_app, <- repeat_app.
  replace (k + 1)%nat with (S k) by lia. reflexivity.
Qed.

Lemma unbound_bound (c : Contract) (address : option string)
    (live : list (nat * Z)) (ls : list Listener) :
  unbound (Some c) address live ls.
Proof. discriminate. Qed.

Lemma unbound_reset (binding : option Contract) (address : option string)
    (live : list (nat * Z)) (ls : list Listener) :
  unbound binding address live ls -> unbound binding None live ls.
Proof. intros H E. destruct (H E) as (_ & Hl & Hs). auto. Qed.

Lemma unbound_filter (binding : option Contract) (address : option string)
    (live : list (nat * Z)) (ls : list Listener)
    (f : nat * Z -> bool) :
  unbound binding address live ls ->
  unbound binding address (filter f live) ls.
Proof.
  intros H E. destruct (H E) as (Ha & -> & Hs). auto.
Qed.

(** Closes [page_ok] of a world written out field by field. *)
Ltac page :=
  match goal with
  | H : page_ok _ |- _ =>
      let Ht := fresh "Ht" in
      let Hp := fresh "Hp" in
      let Hb := fresh "Hb" in
      destruct H as (Ht & Hp & Hb);
      unfold page_ok, timers_ok in *; simpl in *;
      (split; [|split]);
      first
        [ assumption
        | eapply live_add; eassumption
        | eapply live_add; eapply live_clear; eassumption
        | eapply live_clear; eassumption
        | eapply live_forget; eassumption
        | eapply live_forget; eapply live_clear; eassumption
        | apply paired_add; assumption
        | apply unbound_bound
        | eapply unbound_reset; eassumption
        | apply unbound_filter; assumption
        | eapply unbound_reset; apply unbound_filter; eassumption ]
  end.

Lemma updateBalance_keeps_page (w : World) :
  page_ok w -> safe page_ok true updateBalance w.
Proof.
  intros Hw. unfold updateBalance, token_call. simpl.
  destruct (token w); simpl; [|intros _; exact Hw].
  split; [intros _; exact Hw|].
  intros [b|e] w' Hw'; simpl; intros _; [page|exact Hw'].
Qed.

(** Walks through a call, one suspension after the other. *)
Ltac safety :=
  repeat (unfold after; simpl;
    match goal with
    | |- _ /\ _ => split
    | |- false = true -> _ => discriminate
    | |- true = true -> _ => intros _
    | |- forall _ : Settled _, _ => intros [?|?] ? ?
    | |- context [match token ?w with _ => _ end] => destruct (token w) eqn:?
    | |- context [match pollDataInterval ?w with _ => _ end] =>
        destruct (pollDataInterval w) eqn:?
    | |- context [match Js.prop ?e ?n with _ => _ end] =>
        destruct (Js.prop e n)
    | |- context [match hd_error ?l with _ => _ end] => destruct l
    | |- context [if ?b then _ else _] => destruct b
    end).

Lemma transferTokens_keeps_page (to : string) (amount : Z) (w : World) :
  page_ok w -> safe page_ok true (transferTokens to amount) w.
Proof.
  intros Hw.
  unfold transferTokens, transferTokens_try, transferTokens_catch,
    transferTokens_finally, await_call, updateBalance, token_call, read_prop.
  safety; page.
Qed.

Lemma networkChanged_keeps_page (w : World) :
  page_ok w -> safe page_ok true networkChanged w.
Proof.
  intros Hw. unfold networkChanged, stopPollingData, resetState, clearInterval.
  safety; page.
Qed.

Lemma accountsChanged_keeps_page (accounts : list string) (w : World) :
  page_ok w -> safe page_ok true (accountsChanged accounts) w.
Proof.
  intros Hw.
  unfold accountsChanged, stopPollingData, resetState, clearInterval,
    initialize, startPollingData, detach, intializeEthers, getTokenData,
    updateBalance, token_call.
  safety; page.
Qed.

Lemma connectWallet_keeps_page (w : World) :
  page_ok w -> safe page_ok true connectWallet w.
Proof.
  intros Hw.
  unfold connectWallet, checkNetwork, initialize, startPollingData, detach,
    intializeEthers, getTokenData, updateBalance, token_call.
  safety; page.
Qed.

Lemma mounted_page_ok (version : option string) :
  sys_ok page_ok (mounted version).
Proof.
  split; [|constructor]. split; [|split]; simpl.
  - repeat split; simpl; try constructor; try contradiction; discriminate.
  - exists 0%nat. reflexivity.
  - intros _. auto.
Qed.

Lemma page_always_ok (version : option string) (evs : list Event) :
  sys_ok page_ok (play evs (mounted version)).
Proof.
  apply play_ok.
  - apply connectWallet_keeps_page.
  - apply transferTokens_keeps_page.
  - apply accountsChanged_keeps_page.
  - apply networkChanged_keeps_page.
  - apply updateBalance_keeps_page.
  - intros v w Hw. page.
  - apply mounted_page_ok.
Qed.

Lemma filter_absent (id : nat) (l : list (nat * Z)) :
  ~ In id (map fst l) ->
  filter (fun t => negb (Nat.eqb (fst t) id)) l = l.
Proof.
  induction l as [|t l IH]; simpl; intros Hnot; [reflexivity|].
  destruct (Nat.eqb_spec (fst t) id) as [E|_]; simpl.
  - exfalso. apply Hnot. left. exact E.
  - f_equal. apply IH. intros H. apply Hnot. right. exact H.
Qed.

Lemma filter_present_length (id : nat) (l : list (nat * Z)) :
  NoDup (map fst l) ->
  In id (map fst l) ->
  List.length (filter (fun t => negb (Nat.eqb (fst t) id)) l)
  = pred (List.length l).
Proof.
  induction l as [|t l IH]; simpl; intros Hd Hin; [contradiction|].
  inversion Hd as [|x xs Hnot Hd']; subst.
  destruct (Nat.eqb_spec (fst t) id) as [E|Hne]; simpl.
  - subst id. rewrite (filter_absent (fst t) l Hnot). reflexivity.
  - destruct Hin as [H|Hin]; [contradiction|].
    rewrite (IH Hd' Hin). destruct l; [contradiction|reflexivity].
Qed.

(** X10: whatever happens on the page (clicks, transfers, wallet events,
    ticks, promises settled in any order and with any result), the live
    timers have distinct ids, each polls every 1000 ms, and the handle the
    component stores, when it stores one, is the id of a live timer: a
    [stopPollingData] then really stops a timer. *)
Theorem stored_handle_is_always_live (version : option string)
    (evs : list Event) :
  let w := world (play evs (mounted version)) in
  NoDup (map fst (intervals w))
  /\ (forall t, In t (intervals w) -> snd t = 1000)
  /\ match pollDataInterval w with
     | Some id =>
         In id (map fst (intervals w))
         /\ List.length (intervals (after stopPollingData w))
            = pred (List.length (intervals w))
     | None => True
     end.
Proof.
  destruct (page_always_ok version evs) as (((Hd & Hlt & Hh & Hms) & _) & _).
  split; [exact Hd|]. split; [exact Hms|].
  destruct (pollDataInterval _) as [id|] eqn:E; [|exact Logic.I].
  split; [apply Hh; reflexivity|].
  unfold after, stopPollingData. simpl. rewrite E. simpl.
  apply filter_present_length; [exact Hd|apply Hh; reflexivity].
Qed.

(** X12: whatever happens on the page, as soon as an address is selected,
    a timer is live or a listener is registered, [this.token] exists: no
    tick, wallet event or transfer of a connected page fails for want of
    the contract. *)
Theorem contract_exists_when_needed (version : option string)
    (evs : list Event) :
  let w := world (play evs (mounted version)) in
  selectedAddress (data w) <> None
  \/ intervals w <> [] \/ listeners w <> [] ->
  token w <> None.
Proof.
  intros w H Hnone. subst w.
  destruct (page_always_ok version evs) as ((_ & _ & Hb) & _).
  destruct (Hb Hnone) as (Ha & Hi & Hl).
  destruct H as [H|[H|H]]; contradiction.
Qed.

Lemma contract_exists_when_needed_witness :
  let w := world (play Sample.two_clicks
                       (mounted (Some HARDHAT_NETWORK_ID))) in
  intervals w <> [] /\ token w <> None.
Proof.
  assert (H : intervals (world (play Sample.two_clicks
                                     (mounted (Some HARDHAT_NETWORK_ID))))
              <> []) by discriminate.
  split; [exact H|].
  exact (contract_exists_when_needed (Some HARDHAT_NETWORK_ID)
           Sample.two_clicks (or_intror (or_introl H))).
Defined.

(** ** Starting and stopping the polling *)

(** X13: in a world whose timers are as X10 says, starting the polling
    and stopping it again leaves the live timers as they were and no
    handle stored; and stopping twice is stopping once. *)
Theorem start_then_stop_polling (w : World) :
  timers_ok w ->
  intervals (after stopPollingData (after startPollingData w)) = intervals w
  /\ pollDataInterval (after stopPollingData (after startPollingData w))
     = None
  /\ after stopPollingData (after stopPollingData w)
     = after stopPollingData w.
Proof.
  intros (Hd & Hlt & Hh & Hms).
  unfold after, startPollingData, stopPollingData, detach. simpl.
  unfold updateBalance, token_call. simpl.
  assert (Hf : filter (fun t => negb (Nat.eqb (fst t) (nextInterval w)))
                 (intervals w ++ [(nextInterval w, 1000)]) = intervals w).
  { rewrite filter_app. simpl. rewrite Nat.eqb_refl. simpl.
    rewrite app_nil_r. apply filter_absent.
    intros Hin. apply Hlt in Hin. lia. }
  split; [|split].
  - destruct (token w); simpl; exact Hf.
  - destruct (token w); reflexivity.
  - destruct (pollDataInterval w); reflexivity.
Qed.

Lemma start_then_stop_polling_witness :
  timers_ok Sample.connected
  /\ intervals (after stopPollingData
                  (after startPollingData Sample.connected))
     = [(1%nat, 1000)].
Proof.
  assert (H : timers_ok Sample.connected).
  { repeat split; simpl.
    - repeat constructor. intros [].
    - intros id [<-|[]]. lia.
    - intros id [= <-]. left. reflexivity.
    - intros t [<-|[]]. reflexivity. }
  split; [exact H|].
  exact (proj1 (start_then_stop_polling Sample.connected H)).
Defined.

(** ** Wallet events on a page with several registrations *)

Lemma world_call (p : Prog unit) (sys : System) :
  world (call p sys) = after p (world sys).
Proof.
  unfold call, after. destruct (start p (world sys)) as [[w rest] sp].
  reflexivity.
Qed.

(** An event runs the callback once for each registration of its kind:
    what the first run establishes and every later run keeps holds after
    the event. *)
Lemma emit_establishes (J : System -> Prop) (l : Listener)
    (handler : Prog unit) (sys : System) :
  In l (listeners (world sys)) ->
  J (call handler sys) ->
  (forall acc, J acc -> J (call handler acc)) ->
  J (emit l handler sys).
Proof.
  intros Hin Hfirst Hnext. unfold emit.
  revert Hin. generalize (listeners (world sys)) as ls.
  assert (Hkeep : forall ls acc,
            J acc ->
            J (fold_left
                 (fun acc l' =>
                    match l, l' with
                    | OnAccountsChanged, OnAccountsChanged => call handler acc
                    | OnNetworkChanged, OnNetworkChanged => call handler acc
                    | _, _ => acc
                    end) ls acc)).
  { induction ls as [|l' ls IH]; intros acc Hacc; simpl; [exact Hacc|].
    apply IH. destruct l, l'; try exact Hacc; apply Hnext; exact Hacc. }
  induction ls as [|l' ls IH]; intros Hin; simpl; [contradiction|].
  destruct Hin as [->|Hin].
  - apply Hkeep. destruct l; exact Hfirst.
  - destruct l, l'; try (apply IH; exact Hin); apply Hkeep; exact Hfirst.
Qed.

(** One run of the "accountsChanged" callback on a first address. *)
Lemma accountsChanged_run (newAddress : string) (others : list string)
    (w : World) :
  let w' := after (accountsChanged (newAddress :: others)) w in
  intervals w'
  = intervals (after stopPollingData w) ++ [(nextInterval w, 1000)]
  /\ pollDataInterval w' = Some (nextInterval w)
  /\ nextInterval w' = S (nextInterval w)
  /\ selectedAddress (data w') = Some newAddress.
Proof.
  unfold after, accountsChanged, stopPollingData, initialize,
    startPollingData, detach, intializeEthers, getTokenData, updateBalance,
    token_call. simpl.
  destruct (pollDataInterval w); simpl; repeat split.
Qed.

(** X14: an "accountsChanged" event with a first address, on a page where
    the callback is registered once or many times: when the event has been
    handled, the live timers are those [stopPollingData] would have left,
    and exactly one new one, whose handle is stored; the new address is
    selected.  The repeated registrations of repeated connects do not
    multiply the timers. *)
Theorem account_change_leaves_one_new_timer (sys : System)
    (newAddress : string) (others : list string) :
  timers_ok (world sys) ->
  In OnAccountsChanged (listeners (world sys)) ->
  let sys' := dispatch (AccountsChanged (newAddress :: others)) sys in
  exists id,
    intervals (world sys')
    = intervals (after stopPollingData (world sys)) ++ [(id, 1000)]
    /\ pollDataInterval (world sys') = Some id
    /\ (nextInterval (world sys) <= id)%nat
    /\ selectedAddress (data (world sys')) = Some newAddress.
Proof.
  intros Hok Hin sys'. subst sys'. simpl.
  set (base := intervals (after stopPollingData (world sys))).
  set (J := fun acc : System =>
    exists id,
      intervals (world acc) = base ++ [(id, 1000)]
      /\ pollDataInterval (world acc) = Some id
      /\ nextInterval (world acc) = S id
      /\ (forall x, In x (map fst base) -> (x < id)%nat)
      /\ (nextInterval (world sys) <= id)%nat
      /\ selectedAddress (data (world acc)) = Some newAddress).
  assert (HJ : J (emit OnAccountsChanged
                       (accountsChanged (newAddress :: others)) sys)).
  { apply emit_establishes; [exact Hin| |].
    - destruct (accountsChanged_run newAddress others (world sys))
        as (Hi & Hp & Hn & Ha).
      exists (nextInterval (world sys)). rewrite world_call.
      repeat split; try assumption; [|lia].
      intros x Hx. destruct Hok as (_ & Hlt & _).
      apply Hlt. subst base.
      destruct (stopPollingData_clears_the_handle (world sys))
        as (_ & _ & _ & E).
      rewrite E in Hx. destruct (pollDataInterval (world sys)); [|exact Hx].
      apply in_map_iff in Hx. destruct Hx as (t & <- & Hx).
      apply filter_In in Hx. apply in_map. apply Hx.
    - intros acc (id & Hi & Hp & Hn & Hlt & Hge & _).
      destruct (accountsChanged_run newAddress others (world acc))
        as (Hi' & Hp' & Hn' & Ha').
      exists (S id). rewrite world_call.
      rewrite Hn in Hi', Hp', Hn'.
      repeat split; try assumption; [| |lia].
      + rewrite Hi'. f_equal.
        destruct (stopPollingData_clears_the_handle (world acc))
          as (_ & _ & _ & E).
        rewrite E, Hp, Hi, filter_app. simpl. rewrite Nat.eqb_refl. simpl.
        rewrite app_nil_r. apply filter_absent.
        intros Hx. apply Hlt in Hx. lia.
      + intros x Hx. apply Hlt in Hx. lia. }
  destruct HJ as (id & Hi & Hp & _ & _ & Hge & Ha).
  exists id. repeat split; assumption.
Qed.

Lemma account_change_leaves_one_new_timer_witness :
  let sys := play Sample.two_clicks (mounted (Some HARDHAT_NETWORK_ID)) in
  let sys' := dispatch (AccountsChanged ["0x70997970"%string]) sys in
  timers_ok (world sys)
  /\ In OnAccountsChanged (listeners (world sys))
  /\ exists id,
       intervals (world sys') = [(1%nat, 1000); (id, 1000)]
       /\ pollDataInterval (world sys') = Some id.
Proof.
  assert (Hok : timers_ok (world (play Sample.two_clicks
                                   (mounted (Some HARDHAT_NETWORK_ID))))).
  { repeat split; simpl.
    - repeat constructor; simpl; intuition discriminate.
    - intros id [<-|[<-|[]]]; lia.
    - intros id [= <-]. right. left. reflexivity.
    - intros t [<-|[<-|[]]]; reflexivity. }
  assert (Hin : In OnAccountsChanged
                  (listeners (world (play Sample.two_clicks
                                      (mounted (Some HARDHAT_NETWORK_ID))))))
    by (left; reflexivity).
  destruct (account_change_leaves_one_new_timer
              (play Sample.two_clicks (mounted (Some HARDHAT_NETWORK_ID)))
              "0x70997970" [] Hok Hin) as (id & Hi & Hp & _).
  split; [exact Hok|]. split; [exact Hin|].
  exists id. split; [exact Hi|exact Hp].
Defined.

(** One run of a callback that resets: it stops the polling, puts the data
    back to [initialData()], parks nothing, and a second run changes
    nothing more. *)
Lemma reset_run (w : World) :
  let w' := with_data (fun _ => initialData) (after stopPollingData w) in
  start networkChanged w = (w', Ret tt, [])
  /\ start (accountsChanged []) w = (w', Ret tt, [])
  /\ with_data (fun _ => initialData) (after stopPollingData w') = w'.
Proof.
  unfold after, networkChanged, accountsChanged, stopPollingData, resetState.
  simpl. destruct (pollDataInterval w); simpl; repeat split.
Qed.

Lemma emit_reset (l : Listener) (handler : Prog unit) (sys : System) :
  (forall w,
     start handler w
     = (with_data (fun _ => initialData) (after stopPollingData w),
        Ret tt, [])) ->
  In l (listeners (world sys)) ->
  world (emit l handler sys)
  = with_data (fun _ => initialData) (after stopPollingData (world sys))
  /\ tasks (emit l handler sys) = tasks sys.
Proof.
  intros Hrun Hin.
  set (J := fun acc : System =>
    world acc
    = with_data (fun _ => initialData) (after stopPollingData (world sys))
    /\ tasks acc = tasks sys).
  assert (Hcall : forall acc,
            call handler acc
            = mkSystem (with_data (fun _ => initialData)
                          (after stopPollingData (world acc)))
                       (tasks acc)).
  { intros acc. unfold call. rewrite Hrun. simpl.
    rewrite app_nil_r. reflexivity. }
  apply (emit_establishes J l handler sys Hin).
  - rewrite Hcall. split; reflexivity.
  - intros acc (Hw & Ht). rewrite Hcall. split; simpl; [|exact Ht].
    rewrite Hw. apply (reset_run (world sys)).
Qed.

(** X15: an "accountsChanged" event without an address and a
    "networkChanged" event, on a page where the callbacks are registered
    once or many times: the data is that of [initialData()], the stored
    timer is cleared and no handle is kept, the timers the component had
    lost track of are still live, and no call is parked or cancelled: the
    reads in flight will still write their answer. *)
Theorem removal_and_network_change_reset (sys : System)
    (version : option string) :
  In OnAccountsChanged (listeners (world sys)) ->
  In OnNetworkChanged (listeners (world sys)) ->
  let removed := dispatch (AccountsChanged []) sys in
  let switched := dispatch (NetworkChanged version) sys in
  (data (world removed) = initialData
   /\ pollDataInterval (world removed) = None
   /\ intervals (world removed)
      = intervals (after stopPollingData (world sys))
   /\ tasks removed = tasks sys)
  /\ (data (world switched) = initialData
      /\ pollDataInterval (world switched) = None
      /\ intervals (world switched)
         = intervals (after stopPollingData (world sys))
      /\ networkVersion (world switched) = version
      /\ tasks switched = tasks sys).
Proof.
  intros Ha Hn removed switched. subst removed switched. simpl.
  destruct (emit_reset OnAccountsChanged (accountsChanged []) sys
              (fun w => proj1 (proj2 (reset_run w))) Ha) as (Hw & Ht).
  destruct (emit_reset OnNetworkChanged networkChanged
              (mkSystem (set_networkVersion version (world sys)) (tasks sys))
              (fun w => proj1 (reset_run w)) Hn) as (Hw' & Ht').
  rewrite Hw, Ht, Hw', Ht'. simpl.
  destruct (stopPollingData_clears_the_handle (world sys))
    as (_ & Hp & _ & Hi).
  split.
  - repeat split. exact Hp.
  - unfold after, stopPollingData. simpl.
    destruct (pollDataInterval (world sys)); simpl; repeat split.
Qed.

Lemma removal_and_network_change_reset_witness :
  let sys := play Sample.two_clicks (mounted (Some HARDHAT_NETWORK_ID)) in
  let removed := dispatch (AccountsChanged []) sys in
  In OnAccountsChanged (listeners (world sys))
  /\ In OnNetworkChanged (listeners (world sys))
  /\ data (world removed) = initialData
  /\ intervals (world removed) = [(1%nat, 1000)]
  /\ List.length (tasks removed) = 4%nat.
Proof.
  assert (Ha : In OnAccountsChanged
                 (listeners (world (play Sample.two_clicks
                                     (mounted (Some HARDHAT_NETWORK_ID))))))
    by (left; reflexivity).
  assert (Hn : In OnNetworkChanged
                 (listeners (world (play Sample.two_clicks
                                     (mounted (Some HARDHAT_NETWORK_ID))))))
    by (right; left; reflexivity).
  destruct (removal_and_network_change_reset
              (play Sample.two_clicks (mounted (Some HARDHAT_NETWORK_ID)))
              None Ha Hn) as ((Hd & _ & Hi & Ht) & _).
  split; [exact Ha|]. split; [exact Hn|]. split; [exact Hd|].
  split; [exact Hi|]. rewrite Ht. reflexivity.
Defined.

(** ** The error utilities, the remaining cases *)

(** X16: [getRpcErrorMessage] falls back on [error.message] only when
    [error.data] is falsy.  For an error whose [data] is an object it
    returns [data.message], which is undefined when [data] has no message,
    whatever [error.message] says; and for an undefined or null error it
    throws. *)
Theorem getRpcErrorMessage_without_message
    (props dprops : list (string * JsVal)) (w : World) :
  Js.lookup "data" props = VObj dprops ->
  returns (getRpcErrorMessage (VObj props)) w
  = Some (Js.lookup "message" dprops)
  /\ returns (getRpcErrorMessage VUndefined) w = None
  /\ returns (getRpcErrorMessage VNull) w = None.
Proof.
  intros Hd. unfold getRpcErrorMessage, read_prop, returns. simpl.
  rewrite Hd. simpl. repeat split.
Qed.

Lemma getRpcErrorMessage_without_message_witness :
  let error := VObj [("message", VStr "Internal JSON-RPC error.");
                     ("data", VObj [("code", VNum (-32000))])] in
  Js.lookup "data" [("message", VStr "Internal JSON-RPC error.");
                    ("data", VObj [("code", VNum (-32000))])]
  = VObj [("code", VNum (-32000))]
  /\ returns (getRpcErrorMessage error) Sample.connected = Some VUndefined.
Proof.
  split; [reflexivity|].
  exact (proj1 (getRpcErrorMessage_without_message
                  [("message", VStr "Internal JSON-RPC error.");
                   ("data", VObj [("code", VNum (-32000))])]
                  [("code", VNum (-32000))] Sample.connected eq_refl)).
Defined.

(** X17: when the try block of [transferTokens] fails with undefined or
    null, the catch block itself throws on [error.code]: the call throws a
    TypeError, nothing is logged or recorded, and the finally block has
    still cleared [txBeingSent]. *)
Theorem transfer_rejected_with_nothing (s : Sched) (n : nat) (to : string)
    (amount : Z) (w : World) (error : JsVal) :
  completion (exec s (transferTokens_try to amount) n w) = Thrown error ->
  error = VUndefined \/ error = VNull ->
  let r1 := exec s (transferTokens_try to amount) n w in
  let r := exec s (transferTokens to amount) n w in
  (exists e,
     completion r = Thrown e
     /\ Js.prop e "name" = Some (VStr "TypeError"))
  /\ transactionError (data (final r)) = transactionError (data (final r1))
  /\ console (final r) = console (final r1)
  /\ txBeingSent (data (final r)) = None.
Proof.
  intros H Hnull r1 r. subst r1 r.
  rewrite (catch_of_thrown s n to amount w error H).
  unfold transferTokens_catch, read_prop.
  destruct Hnull as [-> | ->]; simpl; repeat split;
    eexists; split; reflexivity.
Qed.

Lemma transfer_rejected_with_nothing_witness :
  let s := Sample.alone (Sample.refusing VUndefined) in
  let r := exec s (transferTokens "0x70997970" 5) 0 (Sample.loaded 100) in
  completion (exec s (transferTokens_try "0x70997970" 5) 0
                (Sample.loaded 100)) = Thrown VUndefined
  /\ transactionError (data (final r)) = VUndefined
  /\ txBeingSent (data (final r)) = None.
Proof.
  destruct (transfer_rejected_with_nothing
              (Sample.alone (Sample.refusing VUndefined)) 0%nat
              "0x70997970" 5 (Sample.loaded 100) VUndefined
              eq_refl (or_introl eq_refl))
    as (_ & He & _ & Hp).
  split; [reflexivity|]. split; [exact He|exact Hp].
Defined.

(** ** The template *)

(** X18: on the loaded page (wallet injected, an address selected, token
    data and a balance [b >= 0] read in), the template renders exactly one
    of [NoTokensMessage] and the transfer form, the form whenever
    [b > 0]: a pending transaction or a recorded error adds its message
    above and does not withhold the form. *)
Theorem template_of_loaded_page (w : World) (token : TokenData)
    (address : string) (b : Z) :
  selectedAddress (data w) = Some address ->
  address <> ""%string ->
  tokenData (data w) = Some token ->
  balance (data w) = Some b ->
  0 <= b ->
  template true w
  = Dapp token (shortenAddress address) b
      ((if shown (txBeingSent (data w))
        then match txBeingSent (data w) with
             | Some txHash => [WaitingForTransactionMessage txHash]
             | None => []
             end
        else [])
       ++ (if Js.truthy (transactionError (data w))
           then [TransactionErrorMessage (transactionError (data w))]
           else [])
       ++ [if b =? 0 then NoTokensMessage else TransferForm (symbol token)]).
Proof.
  intros Ha Hne Ht Hb Hpos.
  unfold template, holds, returns, balanceZero, balanceGreaterZero. simpl.
  rewrite Ha, Ht, Hb. simpl.
  apply String.eqb_neq in Hne. rewrite Hne. simpl.
  f_equal. f_equal.
  - destruct (txBeingSent (data w)) as [h|]; [|reflexivity].
    simpl. destruct (String.eqb h ""); reflexivity.
  - f_equal. destruct (Z.eqb_spec b 0) as [->|Hnz]; simpl; [reflexivity|].
    assert (Hgt : (b >? 0) = true) by (apply Z.gtb_gt; lia).
    rewrite Hgt. reflexivity.
Qed.

Lemma template_of_loaded_page_witness :
  let w := with_data (set_txBeingSent (Some "0x5c50"))
             (with_data (set_tokenData (Some (mkTokenData "My Hardhat Token"
                                                          "MHT")))
                (Sample.loaded 100)) in
  0 <= 100
  /\ template true w
     = Dapp (mkTokenData "My Hardhat Token" "MHT") "0xf39F...2266" 100
         [WaitingForTransactionMessage "0x5c50"; TransferForm "MHT"].
Proof.
  assert (Hpos : 0 <= 100) by lia.
  assert (Hne : "0xf39Fd6e51aad88F6F4ce6aB8827279cffFb92266"%string
                <> ""%string) by discriminate.
  pose proof (template_of_loaded_page
              (with_data (set_txBeingSent (Some "0x5c50"))
                 (with_data (set_tokenData
                               (Some (mkTokenData "My Hardhat Token" "MHT")))
                    (Sample.loaded 100)))
              (mkTokenData "My Hardhat Token" "MHT")
              "0xf39Fd6e51aad88F6F4ce6aB8827279cffFb92266" 100
              eq_refl Hne eq_refl eq_refl Hpos) as H.
  split; [exact Hpos|]. exact H.
Defined.


(** ** The listeners and the connects *)

Lemma tame_start (R : Type) (p : Prog R) :
  forall w ls,
    tame p w ls ->
    listeners (after p w) = ls
    /\ tame_rest (snd (fst (start p w)))
    /\ Forall task_ok (snd (start p w)).
Proof.
  induction p as [R r|R e|R k IH|R w' k IH|R q k IH|R p' IHp' k IH];
    intros w ls H; simpl in H.
  - unfold after; simpl. split; [exact H|]. split; [exact Logic.I|constructor].
  - unfold after; simpl. split; [exact H|]. split; [exact Logic.I|constructor].
  - apply (IH w w ls H).
  - apply (IH w' ls H).
  - unfold after; simpl. destruct H as (Hq & Hl & Hk).
    split; [exact Hl|]. split; [split; assumption|constructor].
  - destruct H as (Hp' & Hk).
    destruct (IHp' w ls Hp') as (_ & Hr1 & Hs1).
    destruct (IH (after p' w) ls Hk) as (Hl & Hr2 & Hs2).
    unfold after in *. simpl.
    destruct (start p' w) as [[w1 rest1] sp1] eqn:E1. simpl in *.
    destruct (start k w1) as [[w2 rest2] sp2] eqn:E2. simpl in *.
    split; [exact Hl|]. split; [exact Hr2|].
    apply Forall_app. split; [exact Hs1|].
    apply Forall_app. split; [|exact Hs2].
    unfold pending. destruct (suspended rest1) eqn:Es; constructor;
      [|constructor].
    right. split; assumption.
Qed.

Lemma call_tame (p : Prog unit) (sys : System) :
  Forall task_ok (tasks sys) ->
  tame p (world sys) (listeners (world sys)) ->
  Forall task_ok (tasks (call p sys))
  /\ listeners (world (call p sys)) = listeners (world sys).
Proof.
  intros Ht Hp.
  destruct (tame_start unit p (world sys) _ Hp) as (Hl & Hr & Hs).
  unfold call, after in *.
  destruct (start p (world sys)) as [[w rest] sp]. simpl in *.
  split; [|exact Hl].
  apply Forall_app. split; [exact Ht|].
  apply Forall_app. split; [exact Hs|].
  unfold pending. destruct (suspended rest) eqn:Es; constructor;
    [|constructor].
  right. split; assumption.
Qed.

Lemma emit_tame (l : Listener) (handler : Prog unit) (sys : System) :
  (forall w, tame handler w (listeners w)) ->
  Forall task_ok (tasks sys) ->
  Forall task_ok (tasks (emit l handler sys))
  /\ listeners (world (emit l handler sys)) = listeners (world sys).
Proof.
  intros Hh. unfold emit.
  assert (Hfold : forall ls acc,
            Forall task_ok (tasks acc) ->
            let acc' :=
              fold_left
                (fun acc l' =>
                   match l, l' with
                   | OnAccountsChanged, OnAccountsChanged => call handler acc
                   | OnNetworkChanged, OnNetworkChanged => call handler acc
                   | _, _ => acc
                   end) ls acc in
            Forall task_ok (tasks acc')
            /\ listeners (world acc') = listeners (world acc)).
  { induction ls as [|l' ls IH]; intros acc Ht; simpl; [split; auto|].
    destruct (call_tame handler acc Ht (Hh (world acc))) as (Ht' & Hl').
    destruct l, l'; try (apply IH; exact Ht);
      destruct (IH (call handler acc) Ht') as (H1 & H2);
      (split; [exact H1|rewrite H2; exact Hl']). }
  intros Ht. apply Hfold. exact Ht.
Qed.

(** Walks through a call that leaves the listeners alone. *)
Ltac taming :=
  repeat (unfold after; simpl;
    match goal with
    | |- _ /\ _ => split
    | |- _ <> Enable => discriminate
    | |- forall _ : Settled _, _ => intros [?|?] ?
    | |- context [match token ?w with _ => _ end] => destruct (token w)
    | |- context [match pollDataInterval ?w with _ => _ end] =>
        destruct (pollDataInterval w)
    | |- context [match Js.prop ?e ?n with _ => _ end] =>
        destruct (Js.prop e n)
    | |- context [match hd_error ?l with _ => _ end] => destruct l
    | |- context [if ?b then _ else _] => destruct b
    end);
  try reflexivity.

Lemma updateBalance_tame (w : World) :
  tame updateBalance w (listeners w).
Proof. unfold updateBalance, token_call. taming. Qed.

Lemma transferTokens_tame (to : string) (amount : Z) (w : World) :
  tame (transferTokens to amount) w (listeners w).
Proof.
  unfold transferTokens, transferTokens_try, transferTokens_catch,
    transferTokens_finally, await_call, updateBalance, token_call, read_prop.
  taming.
Qed.

Lemma networkChanged_tame (w : World) :
  tame networkChanged w (listeners w).
Proof.
  unfold networkChanged, stopPollingData, resetState, clearInterval. taming.
Qed.

Lemma initialize_tame (userAddress : option string) (w : World) :
  tame (initialize userAddress) w (listeners w).
Proof.
  unfold initialize, startPollingData, detach, intializeEthers,
    getTokenData, updateBalance, token_call.
  taming.
Qed.

Lemma accountsChanged_tame (accounts : list string) (w : World) :
  tame (accountsChanged accounts) w (listeners w).
Proof.
  unfold accountsChanged, stopPollingData, resetState, clearInterval,
    initialize, startPollingData, detach, intializeEthers, getTokenData,
    updateBalance, token_call.
  taming.
Qed.

(** The [enable()] of a parked [connectWallet] is settled. *)
Lemma connect_resumed (ans : forall q : Request, Settled (Response q))
    (sys : System) :
  Forall task_ok (tasks sys) ->
  let sys' := call (resume ans connectWallet) sys in
  Forall task_ok (tasks sys')
  /\ listeners (world sys')
     = listeners (world sys)
       ++ match ans Enable with
          | Fulfilled _ =>
              if Js.strict_eq_str (networkVersion (world sys))
                                  HARDHAT_NETWORK_ID
              then [OnAccountsChanged; OnNetworkChanged] else []
          | Rejected _ => []
          end.
Proof.
  intros Ht.
  unfold call, resume, connectWallet, checkNetwork, initialize,
    startPollingData, detach, intializeEthers, getTokenData, updateBalance,
    token_call.
  simpl.
  destruct (ans Enable) as [accounts|reason]; simpl.
  - destruct (Js.strict_eq_str (networkVersion (world sys))
                HARDHAT_NETWORK_ID); simpl.
    + split; [|rewrite <- app_assoc; reflexivity].
      apply Forall_app. split; [exact Ht|].
      constructor; [|constructor; [|constructor]];
        right; (split; [reflexivity|]); taming.
    + rewrite !app_nil_r. split; [exact Ht|reflexivity].
  - rewrite !app_nil_r. split; [exact Ht|reflexivity].
Qed.

(** One event: the listeners grow by one pair when the event is a connect
    that gets through, and are unchanged otherwise. *)
Lemma listeners_step (ev : Event) (sys : System) :
  Forall task_ok (tasks sys) ->
  Forall task_ok (tasks (dispatch ev sys))
  /\ listeners (world (dispatch ev sys))
     = listeners (world sys)
       ++ (if passes ev sys then [OnAccountsChanged; OnNetworkChanged]
           else []).
Proof.
  intros Ht.
  destruct ev as [|to amount|i ans|accounts|version|id]; simpl;
    rewrite ?app_nil_r.
  - split; [|reflexivity].
    unfold call, connectWallet. simpl.
    apply Forall_app. split; [exact Ht|].
    constructor; [|constructor]. left. reflexivity.
  - apply call_tame; [exact Ht|apply transferTokens_tame].
  - destruct (nth_error (tasks sys) i) as [p|] eqn:E;
      [|rewrite app_nil_r; split; [exact Ht|reflexivity]].
    pose proof (proj1 (Forall_forall _ _) Ht p (nth_error_In _ _ E)) as Hp.
    assert (Ht' : Forall task_ok (remove_nth i (tasks sys)))
      by (apply Forall_remove_nth; exact Ht).
    destruct Hp as [->|(Hs & Hr)].
    + destruct (connect_resumed ans
                  (mkSystem (world sys) (remove_nth i (tasks sys))) Ht')
        as (H1 & H2).
      split; [exact H1|]. rewrite H2.
      change (awaiting connectWallet) with (Some Enable).
      cbv beta iota. simpl world.
      destruct (ans Enable); [|reflexivity].
      destruct (Js.strict_eq_str _ _); reflexivity.
    + destruct p as [r|e|k|w' k|q k|p' k]; simpl in Hs; try discriminate.
      destruct Hr as (Hq & Hk). simpl.
      destruct q; try (exfalso; apply Hq; reflexivity);
        rewrite app_nil_r;
        (apply (call_tame _
                  (mkSystem (world sys) (remove_nth i (tasks sys))) Ht'));
        apply Hk.
  - apply emit_tame; [apply accountsChanged_tame|exact Ht].
  - apply (emit_tame OnNetworkChanged networkChanged
             (mkSystem (set_networkVersion version (world sys)) (tasks sys))).
    + apply networkChanged_tame.
    + exact Ht.
  - destruct (existsb _ _); [|split; [exact Ht|reflexivity]].
    apply call_tame; [exact Ht|apply updateBalance_tame].
Qed.

Lemma pairs_add (a b : nat) : pairs (a + b) = pairs a ++ pairs b.
Proof.
  unfold pairs. rewrite repeat_app, concat_app. reflexivity.
Qed.

Lemma listeners_play (evs : list Event) :
  forall sys,
    Forall task_ok (tasks sys) ->
    Forall task_ok (tasks (play evs sys))
    /\ listeners (world (play evs sys))
       = listeners (world sys) ++ pairs (connects evs sys).
Proof.
  unfold play. induction evs as [|ev evs IH]; intros sys Ht; simpl.
  - rewrite app_nil_r. split; [exact Ht|reflexivity].
  - destruct (listeners_step ev sys Ht) as (Ht' & Hl').
    destruct (IH (dispatch ev sys) Ht') as (H1 & H2).
    split; [exact H1|]. rewrite H2, Hl', pairs_add, <- app_assoc.
    f_equal. f_equal. destruct (passes ev sys); reflexivity.
Qed.

(** X11: the listeners registered with the wallet are, after any sequence
    of events, one pair of the "accountsChanged" and the "networkChanged"
    callback for each connect that got through (an [enable()] of
    [connectWallet] fulfilled on the expected network), in that order and
    nothing else: none is registered alone, or by anything else.  And none
    is ever removed: after more events the listeners are the earlier ones,
    followed by the pairs of the later connects. *)
Theorem listeners_come_in_pairs (version : option string)
    (evs more : list Event) :
  let sys := play evs (mounted version) in
  listeners (world sys) = pairs (connects evs (mounted version))
  /\ listeners (world (play (evs ++ more) (mounted version)))
     = listeners (world sys) ++ pairs (connects more sys).
Proof.
  assert (H0 : Forall task_ok (tasks (mounted version))) by constructor.
  destruct (listeners_play evs (mounted version) H0) as (Ht & Hl).
  split; [exact Hl|].
  unfold play at 1. rewrite fold_left_app.
  exact (proj2 (listeners_play more (play evs (mounted version)) Ht)).
Qed.

(** The count on the sample runs: both of the two overlapping connects get
    through; of the connect on the wrong network and its retry, only the
    retry does. *)
Lemma connects_of_the_samples :
  connects Sample.two_clicks (mounted (Some HARDHAT_NETWORK_ID)) = 2%nat
  /\ connects Sample.retry (mounted (Some "1"%string)) = 1%nat
  /\ listeners (world (play Sample.retry (mounted (Some "1"%string))))
     = [OnAccountsChanged; OnNetworkChanged].
Proof.
  repeat split.
Qed.
